(** * Resemble AI tool server ([resemble.py]): model and verified properties

    The module exposes two tool operations, [generate_tts] and [list_voices],
    on top of a request helper [make_resemble_request].  This development
    embeds the module in Rocq and proves the behaviour its specification
    describes.

    Modelling choices, all taken from the way the Python module is written:

    - Python values that can come back from [response.json()] are the
      inductive type [value]; a [dict] is the list of its pairs, and as in
      [json.loads] the last binding of a key is the one that counts.
    - Effects are threaded through an explicit [World]: the files of the
      working directory, the process environment, an ordered [trace] of what
      the process printed, sent, opened and wrote, and the source of random
      UUIDs.  A computation is a function [World -> result A * World]; when
      an exception is raised the effects performed so far stay in the world,
      as in Python.
    - The remote service and the standard library's base64 decoder are
      parameters of the functions that use them; a concrete decoder following
      CPython's [binascii.a2b_base64] is given as well and is the one used on
      concrete inputs.
    - The file system is a store of file contents together with the faults
      it answers with: opening a path for writing, writing to it and closing
      it each either succeed or raise the exception the world holds for that
      operation (a missing directory, a refused permission, a full disk). *)

From Stdlib Require Import ZArith QArith String Ascii List Lia.
From stdpp Require Import gmap strings list pretty.
Import ListNotations.

Close Scope Q_scope.
Local Open Scope string_scope.
Local Open Scope Z_scope.

(** ** Python values *)

(** What [json.loads] can produce: [None], booleans, integers, floats,
    strings, lists and dictionaries with string keys. *)
#[warnings="-register-all"] Inductive value : Type :=
| VNone
| VBool (b : bool)
| VInt (n : Z)
| VFloat (q : Q)
| VStr (s : string)
| VList (l : list value)
| VDict (d : list (string * value)).

(** ** Exceptions

    Every value of [exn] is an instance of Python's [Exception] class, the
    class named by the two [except Exception] handlers of the module.
    Signals that derive from [BaseException] only (an interrupt, the
    cancellation of a task by the host runtime) are not part of the model. *)
Inductive exn_class : Type :=
| TransportError      (* httpx.TransportError and subclasses, timeouts included *)
| HTTPStatusError     (* raised by [raise_for_status] *)
| JSONDecodeError     (* raised by [response.json()] *)
| TypeError
| ValueError
| KeyError
| BinasciiError       (* binascii.Error, a subclass of ValueError *)
| OSError.            (* and its subclasses: FileNotFoundError, PermissionError, ... *)

Record exn : Type := mkExn { exn_cls : exn_class; exn_msg : string }.

(** [str(e)] *)
Definition str_exn (e : exn) : string := exn_msg e.

Inductive result (A : Type) : Type :=
| Return (a : A)
| Raise (e : exn).
Arguments Return {A} a.
Arguments Raise {A} e.

Definition is_return {A} (r : result A) : bool :=
  match r with Return _ => true | Raise _ => false end.

(** ** Requests, responses and the trace of effects *)

Inductive http_method : Type := GET | POST.

(** The arguments of [client.post] / [client.get]. *)
Record Request : Type := mkRequest {
  req_method  : http_method;
  req_url     : string;
  req_headers : list (string * string);
  req_json    : option value;              (* [json=] *)
  req_params  : list (string * value);     (* [params=] *)
  req_timeout : Q                          (* [timeout=], in seconds *)
}.

(** An [httpx.Response], as far as the module looks at it: the status code,
    the text [raise_for_status] puts in its exception, and what [.json()]
    does on the body (it returns the parsed value or raises). *)
Record Response : Type := mkResponse {
  status_code  : Z;
  status_text  : string;
  json_outcome : result value
}.

(** What awaiting the request does: it raises (connection error, timeout,
    ...) or it yields a response. *)
Inductive HttpOutcome : Type :=
| SendRaises (e : exn)
| Responded (r : Response).

Inductive Event : Type :=
| EvPrint (line : string)
| EvRequest (r : Request)
| EvOpenWb (path : string)
| EvWrite (path : string) (data : list Byte.byte)
| EvRun (transport : string).

(** The operations on files the module performs. *)
Inductive FsOp : Type :=
| OpOpen (path : string)                          (* [open(path, "wb")] *)
| OpWrite (path : string) (data : list Byte.byte) (* [handle.write(data)] *)
| OpClose (path : string).                        (* leaving the [with] block *)

Record World : Type := mkWorld {
  files   : gmap string (list Byte.byte);
  environ : gmap string string;
  trace   : list Event;
  entropy : nat -> string;   (* the successive results of [str(uuid.uuid4())] *)
  draws   : nat;             (* how many of them have been consumed *)
  fs_fault : FsOp -> option exn;
                             (* the exception the file system answers an
                                operation with, if it refuses it *)
  short_write : string -> list Byte.byte -> nat
                             (* how many bytes reach the file when a write
                                is refused *)
}.

Definition with_files (f : gmap string (list Byte.byte)) (w : World) : World :=
  mkWorld f (environ w) (trace w) (entropy w) (draws w) (fs_fault w) (short_write w).
Definition with_environ (e : gmap string string) (w : World) : World :=
  mkWorld (files w) e (trace w) (entropy w) (draws w) (fs_fault w) (short_write w).
Definition log (ev : Event) (w : World) : World :=
  mkWorld (files w) (environ w) (trace w ++ [ev]) (entropy w) (draws w)
    (fs_fault w) (short_write w).
Definition with_draws (n : nat) (w : World) : World :=
  mkWorld (files w) (environ w) (trace w) (entropy w) n (fs_fault w) (short_write w).

(** ** The monad of effectful, fallible computations *)

Definition M (A : Type) : Type := World -> result A * World.

Definition ret {A} (a : A) : M A := fun w => (Return a, w).
Definition raise {A} (e : exn) : M A := fun w => (Raise e, w).
Definition bind {A B} (m : M A) (k : A -> M B) : M B :=
  fun w => match m w with
           | (Return a, w') => k a w'
           | (Raise e, w') => (Raise e, w')
           end.
Definition lift {A} (r : result A) : M A := fun w => (r, w).

(** [try: body except Exception as e: handler(e)] *)
Definition try_except {A} (body : M A) (handler : exn -> M A) : M A :=
  fun w => match body w with
           | (Return a, w') => (Return a, w')
           | (Raise e, w') => handler e w'
           end.

Notation "'let*' x ':=' m 'in' k" := (bind m (fun x => k))
  (at level 10, x name, m at level 100, k at level 200).

(** ** Python operators used by the module *)

(** [bool(v)]: the truth value tested by [not v]. *)
Definition truthy (v : value) : bool :=
  match v with
  | VNone => false
  | VBool b => b
  | VInt n => negb (n =? 0)
  | VFloat q => negb (Qeq_bool q 0)
  | VStr s => match s with EmptyString => false | String _ _ => true end
  | VList l => match l with [] => false | _ :: _ => true end
  | VDict d => match d with [] => false | _ :: _ => true end
  end.

(** [type(v).__name__], used in the messages of [TypeError]. *)
Definition type_name (v : value) : string :=
  match v with
  | VNone => "NoneType"
  | VBool _ => "bool"
  | VInt _ => "int"
  | VFloat _ => "float"
  | VStr _ => "str"
  | VList _ => "list"
  | VDict _ => "dict"
  end.

(** [d.get(key)] on the dictionary built from the pairs [d] in order, as
    [json.loads] builds it: a later binding of a key replaces an earlier
    one, so the value of [key] is that of its last binding. *)
Fixpoint dict_get (key : string) (d : list (string * value)) : option value :=
  match d with
  | [] => None
  | (k, v) :: d' =>
      match dict_get key d' with
      | Some x => Some x
      | None => if String.eqb k key then Some v else None
      end
  end.

(** [key in d] for a dictionary. *)
Definition dict_has (key : string) (d : list (string * value)) : bool :=
  match dict_get key d with Some _ => true | None => false end.

(** [x == key] for a string [key]: only an equal string compares equal. *)
Definition eq_str (key : string) (x : value) : bool :=
  match x with VStr s => String.eqb s key | _ => false end.

(** [needle in hay] for two strings: substring search. *)
Fixpoint is_substring (needle hay : string) : bool :=
  String.prefix needle hay ||
  match hay with
  | EmptyString => false
  | String _ hay' => is_substring needle hay'
  end.

(** [key in v]: membership of a key in a dictionary, of an element in a
    list, of a substring in a string; every other JSON value is not a
    container and the test raises [TypeError]. *)
Definition py_in (key : string) (v : value) : result bool :=
  match v with
  | VDict d => Return (dict_has key d)
  | VList l => Return (existsb (eq_str key) l)
  | VStr s => Return (is_substring key s)
  | _ => Raise (mkExn TypeError
                 ("argument of type '" +:+ type_name v +:+ "' is not iterable"))
  end.

(** [v[key]] for a string [key]. *)
Definition py_getitem (v : value) (key : string) : result value :=
  match v with
  | VDict d =>
      match dict_get key d with
      | Some x => Return x
      | None => Raise (mkExn KeyError key)
      end
  | VList _ =>
      Raise (mkExn TypeError "list indices must be integers or slices, not str")
  | VStr _ =>
      Raise (mkExn TypeError "string indices must be integers, not 'str'")
  | _ =>
      Raise (mkExn TypeError
               ("'" +:+ type_name v +:+ "' object is not subscriptable"))
  end.

(** ** The standard library's base64 decoder

    [base64.b64decode(s)] with its default arguments ([validate=False])
    encodes a [str] argument as ASCII and hands it to
    [binascii.a2b_base64], which skips every character outside the
    alphabet, stops at a complete padding, and rejects a truncated final
    group. *)

Definition byte_of_N (n : N) : Byte.byte := byte_of_ascii (ascii_of_N n).

(** [table_a2b_base64]: the 6-bit value of a character of the alphabet. *)
Definition table_a2b_base64 (c : ascii) : option N :=
  let n := N_of_ascii c in
  if ((65 <=? n) && (n <=? 90))%N then Some (n - 65)%N
  else if ((97 <=? n) && (n <=? 122))%N then Some (n - 71)%N
  else if ((48 <=? n) && (n <=? 57))%N then Some (n + 4)%N
  else if (n =? 43)%N then Some 62%N
  else if (n =? 47)%N then Some 63%N
  else None.

Definition BASE64_PAD : ascii := "="%char.

(** The decoding loop.  [quad_pos] is the position inside the current group
    of four characters, [leftchar] the bits left over from the previous
    character, [pads] the padding characters seen since the last data
    character, [out] the bytes produced so far. *)
Fixpoint a2b_base64_loop (s : string) (quad_pos : nat) (leftchar : N)
    (pads : nat) (out : list Byte.byte) : result (list Byte.byte) :=
  match s with
  | EmptyString =>
      match quad_pos with
      | O => Return out
      | S O =>
          Raise (mkExn BinasciiError
            ("Invalid base64-encoded string: number of data characters ("
             +:+ pretty (length out / 3 * 4 + 1)%nat
             +:+ ") cannot be 1 more than a multiple of 4"))
      | _ => Raise (mkExn BinasciiError "Incorrect padding")
      end
  | String c rest =>
      if Ascii.eqb c BASE64_PAD then
        if (2 <=? quad_pos)%nat then
          if (4 <=? quad_pos + S pads)%nat then Return out
          else a2b_base64_loop rest quad_pos leftchar (S pads) out
        else a2b_base64_loop rest quad_pos leftchar pads out
      else
        match table_a2b_base64 c with
        | None => a2b_base64_loop rest quad_pos leftchar pads out
        | Some this_ch =>
            match quad_pos with
            | O => a2b_base64_loop rest 1 this_ch 0 out
            | S O =>
                a2b_base64_loop rest 2 (N.land this_ch 15) 0
                  (out ++ [byte_of_N (N.lor (N.shiftl leftchar 2) (N.shiftr this_ch 4))])
            | S (S O) =>
                a2b_base64_loop rest 3 (N.land this_ch 3) 0
                  (out ++ [byte_of_N (N.lor (N.shiftl leftchar 4) (N.shiftr this_ch 2))])
            | _ =>
                a2b_base64_loop rest 0 0%N 0
                  (out ++ [byte_of_N (N.lor (N.shiftl leftchar 6) this_ch)])
            end
        end
  end.

Definition a2b_base64 (s : string) : result (list Byte.byte) :=
  a2b_base64_loop s 0 0%N 0 [].

Definition is_ascii_char (c : ascii) : bool := (N_of_ascii c <? 128)%N.

Fixpoint all_ascii (s : string) : bool :=
  match s with
  | EmptyString => true
  | String c s' => is_ascii_char c && all_ascii s'
  end.

(** [base64.b64decode(v)] *)
Definition b64decode_std (v : value) : result (list Byte.byte) :=
  match v with
  | VStr s =>
      if all_ascii s then a2b_base64 s
      else Raise (mkExn ValueError
                    "string argument should contain only ASCII characters")
  | _ =>
      Raise (mkExn TypeError
               ("argument should be a bytes-like object or ASCII string, not '"
                +:+ type_name v +:+ "'"))
  end.

Definition bytes_of_string (s : string) : list Byte.byte := list_byte_of_string s.

(** The standard encoding (RFC 4648), which is what the service puts in
    [audio_content]: three bytes become four characters of the alphabet,
    and a final group of one or two bytes is padded with ["="]. *)
Definition b64_char (v : N) : ascii :=
  if (v <? 26)%N then ascii_of_N (v + 65)
  else if (v <? 52)%N then ascii_of_N (v + 71)
  else if (v <? 62)%N then ascii_of_N (v - 4)
  else if (v =? 62)%N then "+"%char
  else "/"%char.

Fixpoint b64encode (bs : list Byte.byte) : string :=
  match bs with
  | [] => ""
  | [b1] =>
      let x := Byte.to_N b1 in
      String (b64_char (N.shiftr x 2))
        (String (b64_char (N.shiftl (N.land x 3) 4)) "==")
  | [b1; b2] =>
      let x := Byte.to_N b1 in
      let y := Byte.to_N b2 in
      String (b64_char (N.shiftr x 2))
        (String (b64_char (N.lor (N.shiftl (N.land x 3) 4) (N.shiftr y 4)))
           (String (b64_char (N.shiftl (N.land y 15) 2)) "="))
  | b1 :: b2 :: b3 :: rest =>
      let x := Byte.to_N b1 in
      let y := Byte.to_N b2 in
      let z := Byte.to_N b3 in
      String (b64_char (N.shiftr x 2))
        (String (b64_char (N.lor (N.shiftl (N.land x 3) 4) (N.shiftr y 4)))
           (String (b64_char (N.lor (N.shiftl (N.land y 15) 2) (N.shiftr z 6)))
              (String (b64_char (N.land z 63)) (b64encode rest))))
  end.

(** [forall x < n, p x], as a computation. *)
Definition below (n : nat) (p : N -> bool) : bool :=
  forallb (fun i => p (N.of_nat i)) (seq 0 n).

(** ** Primitive effects *)

(** [print(line)] *)
Definition print (line : string) : M unit :=
  fun w => (Return tt, log (EvPrint line) w).

(** [open(path, "wb")]: raises when the file system refuses, and then
    nothing is created; otherwise creates the file or truncates it.  The
    handle is the path. *)
Definition open_wb (path : string) : M string :=
  fun w =>
    match fs_fault w (OpOpen path) with
    | Some e => (Raise e, w)
    | None =>
        (Return path,
         log (EvOpenWb path) (with_files (<[path := []]> (files w)) w))
    end.

(** What a write leaves in the file: the data after what the handle wrote
    so far. *)
Definition append_to (handle : string) (data : list Byte.byte) (w : World) : World :=
  log (EvWrite handle data)
    (with_files
       (<[handle := (default [] (files w !! handle) ++ data)%list]> (files w)) w).

(** [handle.write(data)]: appends the data; when the file system refuses,
    only the first [short_write] bytes reach the file and the exception is
    raised. *)
Definition file_write (handle : string) (data : list Byte.byte) : M unit :=
  fun w =>
    match fs_fault w (OpWrite handle data) with
    | Some e => (Raise e, append_to handle (take (short_write w handle data) data) w)
    | None => (Return tt, append_to handle data w)
    end.

(** [handle.close()] *)
Definition file_close (handle : string) : M unit :=
  fun w =>
    match fs_fault w (OpClose handle) with
    | Some e => (Raise e, w)
    | None => (Return tt, w)
    end.

(** [with open(path, "wb") as handle: body(handle)]: the file is closed
    when the block is left, also when the body raised; an exception raised
    by closing is the one that leaves the statement. *)
Definition with_open_wb {A} (path : string) (body : string -> M A) : M A :=
  fun w =>
    match open_wb path w with
    | (Raise e, w1) => (Raise e, w1)
    | (Return handle, w1) =>
        match body handle w1 with
        | (r, w2) =>
            match file_close handle w2 with
            | (Raise e, w3) => (Raise e, w3)
            | (Return _, w3) => (r, w3)
            end
        end
    end.

(** [load_dotenv()]: variables of the [.env] file are added to the
    environment, those already set keep their value. *)
Definition load_dotenv (dotenv : gmap string string) : M unit :=
  fun w => (Return tt, with_environ (environ w ∪ dotenv) w).

(** [os.getenv(key, fallback)] *)
Definition os_getenv (key fallback : string) : M string :=
  fun w => (Return (default fallback (environ w !! key)), w).

(** [str(uuid.uuid4())]: consumes one random UUID. *)
Definition uuid4_str : M string :=
  fun w => (Return (entropy w (draws w)), with_draws (S (draws w)) w).

(** [s[:n]] *)
Definition str_take (n : nat) (s : string) : string := substring 0 n s.

(** [mcp.run(transport=...)]: hands the process over to the host runtime,
    which serves tool invocations from then on. *)
Definition mcp_run (transport : string) : M unit :=
  fun w => (Return tt, log (EvRun transport) w).

(** [response.raise_for_status()]: raises unless the status is 2xx. *)
Definition is_success (r : Response) : bool :=
  (200 <=? status_code r) && (status_code r <=? 299).

Definition raise_for_status (r : Response) : M unit :=
  if is_success r then ret tt
  else raise (mkExn HTTPStatusError (status_text r)).

(** [response.json()] *)
Definition response_json (r : Response) : M value := lift (json_outcome r).

(** ** Module globals *)

Definition RESEMBLE_SYNTHESIZE_URL : string :=
  "https://f.cluster.resemble.ai/synthesize".
Definition RESEMBLE_VOICES_URL : string :=
  "https://app.resemble.ai/api/v2/voices".

(** What importing the module leaves behind for the calls that follow: the
    credential read from the environment, and the default value of
    [generate_tts]'s [voice_uuid] parameter, which Python evaluates when the
    [def] statement is executed. *)
Record Loaded : Type := mkLoaded {
  RESEMBLE_API_KEY : string;
  generate_tts_voice_uuid_default : string
}.

(** The top-level statements of the module, in order. *)
Definition import_module (dotenv : gmap string string) : M Loaded :=
  let* _ := load_dotenv dotenv in
  let* key := os_getenv "RESEMBLE_API_KEY" "Not found" in
  let* u := uuid4_str in
  ret (mkLoaded key (str_take 8 u)).

(** The [if __name__ == "__main__":] block. *)
Definition main (m : Loaded) : M unit :=
  let* _ :=
    (if negb (truthy (VStr (RESEMBLE_API_KEY m))) then
       let* _ := print "Warning: RESEMBLE_API_KEY environment variable is not set." in
       print "Set it using: export RESEMBLE_API_KEY='your-api-key'"
     else ret tt) in
  mcp_run "stdio".

(** Running the file as a script. *)
Definition run_script (dotenv : gmap string string) : M unit :=
  let* m := import_module dotenv in
  main m.

(** ** The operations *)

Section Operations.

(** The remote service: what awaiting a given request results in. *)
Variable remote : Request -> HttpOutcome.
(** [base64.b64decode] *)
Variable b64decode : value -> result (list Byte.byte).
(** The loaded module. *)
Variable m : Loaded.

(** [await client.post(url, headers=..., json=..., timeout=...)] and
    [await client.get(url, headers=..., params=..., timeout=...)] *)
Definition client_send (r : Request) : M Response :=
  fun w => match remote r with
           | SendRaises e => (Raise e, log (EvRequest r) w)
           | Responded resp => (Return resp, log (EvRequest r) w)
           end.

Definition synthesis_request (text voice_uuid output_format : string) : Request :=
  let headers :=
    [("Authorization", "Bearer " +:+ RESEMBLE_API_KEY m);
     ("Content-Type", "application/json");
     ("Accept-Encoding", "gzip")] in
  let data :=
    VDict [("voice_uuid", VStr voice_uuid);
           ("data", VStr text);
           ("sample_rate", VInt 48000);
           ("output_format", VStr output_format)] in
  mkRequest POST RESEMBLE_SYNTHESIZE_URL headers (Some data) [] 30%Q.

(** The request a call of [generate_tts] sends. *)
Definition tts_request (text : string) (voice_uuid output_format : option string)
    : Request :=
  synthesis_request text
    (default (generate_tts_voice_uuid_default m) voice_uuid)
    (default "mp3" output_format).

Definition make_resemble_request (text : string)
    (voice_uuid output_format : option string) : M value :=
  let voice_uuid := default "55592656" voice_uuid in
  let output_format := default "mp3" output_format in
  try_except
    (let* response := client_send (synthesis_request text voice_uuid output_format) in
     let* _ := raise_for_status response in
     response_json response)
    (fun e =>
       let* _ := print ("Error making Resemble AI request: " +:+ str_exn e) in
       ret VNone).

Definition generate_tts (text : string)
    (voice_uuid output_format : option string) : M string :=
  let voice_uuid := default (generate_tts_voice_uuid_default m) voice_uuid in
  let output_format := default "mp3" output_format in
  let* response := make_resemble_request text (Some voice_uuid) (Some output_format) in
  let* rejected :=
    (if negb (truthy response) then ret true
     else let* present := lift (py_in "audio_content" response) in
          ret (negb present)) in
  if (rejected : bool) then ret "Unable to generate TTS audio."
  else
    let* audio_content := lift (py_getitem response "audio_content") in
    let* audio_bytes := lift (b64decode audio_content) in
    let output_file := "output." +:+ output_format in
    let* _ := with_open_wb output_file
                (fun audio_file => file_write audio_file audio_bytes) in
    ret ("TTS audio generated and saved as " +:+ output_file).

Definition voices_request (page page_size : Z) : Request :=
  let headers :=
    [("Authorization", "Bearer " +:+ RESEMBLE_API_KEY m);
     ("Content-Type", "application/json")] in
  let params := [("page", VInt page); ("page_size", VInt page_size)] in
  mkRequest GET RESEMBLE_VOICES_URL headers None params 30%Q.

Definition list_voices (page page_size : option Z) : M value :=
  let page := default 1 page in
  let page_size := default 10 page_size in
  try_except
    (let* response := client_send (voices_request page page_size) in
     let* _ := raise_for_status response in
     response_json response)
    (fun e =>
       let error_message := "Error retrieving voices: " +:+ str_exn e in
       let* _ := print error_message in
       ret (VDict [("error", VStr error_message)])).

End Operations.

(** ** Observations *)

(** The requests sent, in order. *)
Definition requests_of (t : list Event) : list Request :=
  omap (fun ev => match ev with EvRequest r => Some r | _ => None end) t.

(** The file-system operations performed, in order. *)
Definition is_fs_event (ev : Event) : bool :=
  match ev with EvOpenWb _ | EvWrite _ _ => true | _ => false end.
Definition fs_events (t : list Event) : list Event := List.filter is_fs_event t.

(** The lines printed, in order. *)
Definition prints_of (t : list Event) : list string :=
  omap (fun ev => match ev with EvPrint s => Some s | _ => None end) t.

(** The JSON value an exchange delivers to the code after
    [raise_for_status()] and [.json()]: none when sending raises (connection
    failure, timeout), when the status is not 2xx, or when the body does not
    decode. *)
Definition delivered (o : HttpOutcome) : option value :=
  match o with
  | SendRaises _ => None
  | Responded r =>
      if is_success r then
        match json_outcome r with
        | Return v => Some v
        | Raise _ => None
        end
      else None
  end.

(** The exception a failed exchange ends with. *)
Definition failure_of (o : HttpOutcome) : option exn :=
  match o with
  | SendRaises e => Some e
  | Responded r =>
      if is_success r then
        match json_outcome r with
        | Return _ => None
        | Raise e => Some e
        end
      else Some (mkExn HTTPStatusError (status_text r))
  end.

(** The [audio_content] field of a JSON value: only an object has fields. *)
Definition audio_field (v : value) : option value :=
  match v with
  | VDict d => dict_get "audio_content" d
  | _ => None
  end.

(** The results on which [generate_tts] gives up because the word
    ["audio_content"] does not occur in them: an object without that key, an
    array without that element, a string without that substring, and the
    values that are false ([None], [False], zero). *)
Definition lacks_audio_content (v : value) : bool :=
  match v with
  | VDict d => negb (dict_has "audio_content" d)
  | VList l => negb (existsb (eq_str "audio_content") l)
  | VStr s => negb (is_substring "audio_content" s)
  | _ => negb (truthy v)
  end.

(** An exchange that yields no result, or a result of the kind above. *)
Definition unusable (o : HttpOutcome) : bool :=
  match delivered o with
  | None => true
  | Some v => lacks_audio_content v
  end.

(** The file system accepts to open [path] for writing, to write [data] to
    it and to close it. *)
Definition writable (w : World) (path : string) (data : list Byte.byte) : bool :=
  match fs_fault w (OpOpen path), fs_fault w (OpWrite path data),
        fs_fault w (OpClose path) with
  | None, None, None => true
  | _, _, _ => false
  end.

(** The [voice_uuid] field of the JSON body of a request. *)
Definition sent_voice_uuid (r : Request) : option value :=
  match req_json r with
  | Some (VDict d) => dict_get "voice_uuid" d
  | _ => None
  end.

(** [headers[name]] *)
Fixpoint header (name : string) (hs : list (string * string)) : option string :=
  match hs with
  | [] => None
  | (k, v) :: hs' => if String.eqb k name then Some v else header name hs'
  end.

(** ** Sample inputs *)

Definition sample_uuid : string := "9b2f6c1e-7d3a-4f52-8c0b-1a2b3c4d5e6f".

Definition fresh_world : World :=
  mkWorld ∅ ∅ [] (fun _ => sample_uuid) 0 (fun _ => None) (fun _ _ => O).

(** A working directory without a directory named [output.a]: opening
    [output.a/b] is refused, everything else is as in [fresh_world]. *)
Definition world_without_directory : World :=
  mkWorld ∅ ∅ [] (fun _ => sample_uuid) 0
    (fun op =>
       match op with
       | OpOpen path =>
           if String.eqb path "output.a/b" then
             Some (mkExn OSError "[Errno 2] No such file or directory: 'output.a/b'")
           else None
       | _ => None
       end)
    (fun _ _ => O).

Definition sample_loaded : Loaded := mkLoaded "secret-token" "9b2f6c1e".

(** A full disk: every write is refused and none of its bytes reaches the
    file; everything else is as in [fresh_world]. *)
Definition world_disk_full : World :=
  mkWorld ∅ ∅ [] (fun _ => sample_uuid) 0
    (fun op =>
       match op with
       | OpWrite _ _ => Some (mkExn OSError "[Errno 28] No space left on device")
       | _ => None
       end)
    (fun _ _ => O).

(** A service that answers every request with [200 OK] and the given body. *)
Definition remote_ok (body : value) : Request -> HttpOutcome :=
  fun _ => Responded (mkResponse 200 "200 OK" (Return body)).

(** A service that cannot be reached in time. *)
Definition remote_timeout : Request -> HttpOutcome :=
  fun _ => SendRaises (mkExn TransportError "timed out").

(** A service that answers [503]. *)
Definition remote_unavailable : Request -> HttpOutcome :=
  fun _ => Responded (mkResponse 503 "Server error '503 Service Unavailable'"
                        (Return (VDict []))).

(** A page of voices as the service returns it. *)
Definition sample_voices : value :=
  VDict [("success", VBool true);
         ("page", VInt 2);
         ("num_pages", VInt 3);
         ("page_size", VInt 5);
         ("items", VList [VDict [("uuid", VStr "55592656"); ("name", VStr "Aria")]])].

(** The characters the decoding loop looks at: the alphabet and the
    padding.  Every other character is skipped. *)
Definition is_base64_char (c : ascii) : bool :=
  Ascii.eqb c BASE64_PAD ||
  match table_a2b_base64 c with Some _ => true | None => false end.

(** A text without the characters the loop skips. *)
Fixpoint strip_foreign (s : string) : string :=
  match s with
  | EmptyString => EmptyString
  | String c s' =>
      if is_base64_char c then String c (strip_foreign s') else strip_foreign s'
  end.

(** * Properties *)

(** ** Observations and effects *)

Lemma requests_of_app t1 t2 :
  requests_of (t1 ++ t2) = (requests_of t1 ++ requests_of t2)%list.
Proof. unfold requests_of. apply omap_app. Qed.

Lemma fs_events_app t1 t2 :
  fs_events (t1 ++ t2) = (fs_events t1 ++ fs_events t2)%list.
Proof. unfold fs_events. apply List.filter_app. Qed.

Lemma requests_of_log_request r w :
  requests_of (trace (log (EvRequest r) w)) = (requests_of (trace w) ++ [r])%list.
Proof. simpl. now rewrite requests_of_app. Qed.

Lemma requests_of_log_print s w :
  requests_of (trace (log (EvPrint s) w)) = requests_of (trace w).
Proof. simpl. rewrite requests_of_app. simpl. apply app_nil_r. Qed.

Lemma fs_events_log_request r w :
  fs_events (trace (log (EvRequest r) w)) = fs_events (trace w).
Proof. simpl. rewrite fs_events_app. simpl. apply app_nil_r. Qed.

Lemma fs_events_log_print s w :
  fs_events (trace (log (EvPrint s) w)) = fs_events (trace w).
Proof. simpl. rewrite fs_events_app. simpl. apply app_nil_r. Qed.

(** ** Strings *)

Lemma prefix_refl s : String.prefix s s = true.
Proof.
  induction s as [|c s IH]; simpl; [reflexivity|].
  destruct (ascii_dec c c) as [_|Hne]; [exact IH | now destruct Hne].
Qed.

Lemma is_substring_refl s : is_substring s s = true.
Proof.
  destruct s as [|c s]; [reflexivity|].
  cbn [is_substring]. now rewrite prefix_refl.
Qed.

Lemma is_substring_append pre s : is_substring s (pre +:+ s) = true.
Proof.
  induction pre as [|c pre IH].
  - apply is_substring_refl.
  - change (String c pre +:+ s) with (String c (pre +:+ s)).
    cbn [is_substring]. rewrite IH. apply orb_true_r.
Qed.

(** ** The decoder inverts the standard encoding *)

Lemma below_spec n p x : below n p = true -> (x < N.of_nat n)%N -> p x = true.
Proof.
  unfold below. rewrite forallb_forall. intros H Hx.
  rewrite <- (N2Nat.id x). apply H. apply in_seq. lia.
Qed.

Lemma to_N_lt b : (Byte.to_N b < 256)%N.
Proof. pose proof (Byte.to_N_bounded b). lia. Qed.

Lemma byte_of_to_N b : byte_of_N (Byte.to_N b) = b.
Proof. now destruct b. Qed.

Lemma shiftr_lt x k n : (x < n * 2 ^ k)%N -> (N.shiftr x k < n)%N.
Proof.
  intros H. rewrite N.shiftr_div_pow2.
  apply N.Div0.div_lt_upper_bound. lia.
Qed.

Lemma land_lt x k : (N.land x (N.ones k) < 2 ^ k)%N.
Proof. rewrite N.land_ones. apply N.mod_lt. apply N.pow_nonzero. discriminate. Qed.

(** Every character of the alphabet is a data character with its own
    value, is not the padding, and is ASCII. *)
Lemma b64_char_spec v :
  (v < 64)%N ->
  table_a2b_base64 (b64_char v) = Some v /\
  Ascii.eqb (b64_char v) BASE64_PAD = false /\
  is_ascii_char (b64_char v) = true.
Proof.
  intros Hv.
  pose proof (below_spec 64
    (fun v => match table_a2b_base64 (b64_char v) with
              | Some u => (u =? v)%N
              | None => false
              end
              && negb (Ascii.eqb (b64_char v) BASE64_PAD)
              && is_ascii_char (b64_char v)) v eq_refl Hv) as H.
  cbv beta in H. apply andb_true_iff in H. destruct H as [H H3].
  apply andb_true_iff in H. destruct H as [H1 H2].
  destruct (table_a2b_base64 (b64_char v)) as [u|]; [|discriminate].
  apply N.eqb_eq in H1. subst u. apply negb_true_iff in H2. auto.
Qed.

(** The four 6-bit values of a group are below 64. *)
Lemma sextet_bounds x y z :
  (x < 256)%N -> (y < 256)%N -> (z < 256)%N ->
  (N.shiftr x 2 < 64)%N /\
  (N.lor (N.shiftl (N.land x 3) 4) (N.shiftr y 4) < 64)%N /\
  (N.lor (N.shiftl (N.land y 15) 2) (N.shiftr z 6) < 64)%N /\
  (N.land z 63 < 64)%N.
Proof.
  intros Hx Hy Hz.
  assert (H : below 256 (fun a => below 256 (fun b =>
                (N.shiftr a 2 <? 64)%N
                && (N.lor (N.shiftl (N.land a 3) 4) (N.shiftr b 4) <? 64)%N
                && (N.lor (N.shiftl (N.land a 15) 2) (N.shiftr b 6) <? 64)%N
                && (N.land a 63 <? 64)%N)) = true)
    by (vm_compute; reflexivity).
  pose proof (below_spec _ _ y (below_spec _ _ x H Hx) Hy) as Hxy.
  pose proof (below_spec _ _ z (below_spec _ _ y H Hy) Hz) as Hyz.
  pose proof (below_spec _ _ z (below_spec _ _ z H Hz) Hz) as Hzz.
  cbv beta in Hxy, Hyz, Hzz.
  repeat match goal with
         | H : (_ && _)%bool = true |- _ => apply andb_true_iff in H; destruct H
         | H : (_ <? _)%N = true |- _ => apply N.ltb_lt in H
         end.
  auto.
Qed.

(** The three bytes the decoder rebuilds from those four values. *)
Lemma regroup x y z :
  (x < 256)%N -> (y < 256)%N -> (z < 256)%N ->
  let v1 := N.shiftr x 2 in
  let v2 := N.lor (N.shiftl (N.land x 3) 4) (N.shiftr y 4) in
  let v3 := N.lor (N.shiftl (N.land y 15) 2) (N.shiftr z 6) in
  let v4 := N.land z 63 in
  N.lor (N.shiftl v1 2) (N.shiftr v2 4) = x /\
  N.lor (N.shiftl (N.land v2 15) 4) (N.shiftr v3 2) = y /\
  N.lor (N.shiftl (N.land v3 3) 6) v4 = z.
Proof.
  intros Hx Hy Hz.
  assert (H1 : below 256 (fun a => below 256 (fun b =>
     (N.lor (N.shiftl (N.shiftr a 2) 2)
        (N.shiftr (N.lor (N.shiftl (N.land a 3) 4) (N.shiftr b 4)) 4) =? a)%N
     && (N.lor (N.shiftl (N.land (N.lor (N.shiftl (N.land a 15) 2) (N.shiftr b 6)) 3) 6)
           (N.land b 63) =? b)%N)) = true)
    by (vm_compute; reflexivity).
  assert (H2 : below 4 (fun p => below 256 (fun b => below 4 (fun q =>
     (N.lor (N.shiftl (N.land (N.lor (N.shiftl p 4) (N.shiftr b 4)) 15) 4)
        (N.shiftr (N.lor (N.shiftl (N.land b 15) 2) q) 2) =? b)%N))) = true)
    by (vm_compute; reflexivity).
  assert (Hp : (N.land x 3 < N.of_nat 4)%N) by apply (land_lt x 2).
  assert (Hq : (N.shiftr z 6 < N.of_nat 4)%N) by (apply shiftr_lt; simpl; lia).
  pose proof (below_spec _ _ y (below_spec _ _ x H1 Hx) Hy) as Hxy.
  pose proof (below_spec _ _ z (below_spec _ _ y H1 Hy) Hz) as Hyz.
  pose proof (below_spec _ _ _ (below_spec _ _ y (below_spec _ _ _ H2 Hp) Hy) Hq) as Hm.
  cbv beta in Hxy, Hyz, Hm.
  apply andb_true_iff in Hxy, Hyz. destruct Hxy as [Ha _]. destruct Hyz as [_ Hc].
  apply N.eqb_eq in Ha, Hc, Hm.
  cbv zeta. auto.
Qed.

(** One step of the loop on a character of the alphabet. *)
Lemma loop_data v rest quad_pos leftchar pads out :
  (v < 64)%N ->
  a2b_base64_loop (String (b64_char v) rest) quad_pos leftchar pads out =
  match quad_pos with
  | O => a2b_base64_loop rest 1 v 0 out
  | S O =>
      a2b_base64_loop rest 2 (N.land v 15) 0
        (out ++ [byte_of_N (N.lor (N.shiftl leftchar 2) (N.shiftr v 4))])
  | S (S O) =>
      a2b_base64_loop rest 3 (N.land v 3) 0
        (out ++ [byte_of_N (N.lor (N.shiftl leftchar 4) (N.shiftr v 2))])
  | _ =>
      a2b_base64_loop rest 0 0%N 0
        (out ++ [byte_of_N (N.lor (N.shiftl leftchar 6) v)])
  end.
Proof.
  intros Hv. destruct (b64_char_spec v Hv) as (Ht & Hp & _).
  cbn [a2b_base64_loop]. now rewrite Hp, Ht.
Qed.

Lemma list_ind3 {A} (P : list A -> Prop) :
  P [] -> (forall a, P [a]) -> (forall a b, P [a; b]) ->
  (forall a b c l, P l -> P (a :: b :: c :: l)) ->
  forall l, P l.
Proof.
  intros H0 H1 H2 H3.
  assert (H : forall l, P l /\ (forall a, P (a :: l)) /\ (forall a b, P (a :: b :: l))).
  { induction l as [|c l (IH0 & IH1 & IH2)]; [auto|].
    split; [apply IH1|]. split; [intros a; apply IH2|].
    intros a b. now apply H3. }
  intros l. apply H.
Qed.

(** The decoding loop, started between two groups, returns the encoded
    bytes after those it already produced. *)
Lemma a2b_base64_loop_encode bs :
  forall out, a2b_base64_loop (b64encode bs) 0 0%N 0 out = Return (out ++ bs)%list.
Proof.
  induction bs as [|b1|b1 b2|b1 b2 b3 rest IH] using list_ind3; intros out.
  - simpl. now rewrite app_nil_r.
  - pose proof (to_N_lt b1) as H1.
    destruct (sextet_bounds (Byte.to_N b1) 0 0 H1) as (S1 & S2 & _); [lia..|].
    destruct (regroup (Byte.to_N b1) 0 0 H1) as (R1 & _); [lia..|].
    cbn [b64encode]. cbv zeta.
    change (N.shiftr 0 4) with 0%N in S2, R1. rewrite N.lor_0_r in S2, R1.
    rewrite (loop_data _ _ _ _ _ _ S1), (loop_data _ _ _ _ _ _ S2).
    rewrite R1, byte_of_to_N. reflexivity.
  - pose proof (to_N_lt b1) as H1. pose proof (to_N_lt b2) as H2.
    destruct (sextet_bounds (Byte.to_N b1) (Byte.to_N b2) 0 H1 H2) as (S1 & S2 & S3 & _);
      [lia|].
    destruct (regroup (Byte.to_N b1) (Byte.to_N b2) 0 H1 H2) as (R1 & R2 & _); [lia|].
    cbn [b64encode]. cbv zeta.
    change (N.shiftr 0 6) with 0%N in S3, R2. rewrite N.lor_0_r in S3, R2.
    rewrite (loop_data _ _ _ _ _ _ S1), (loop_data _ _ _ _ _ _ S2),
      (loop_data _ _ _ _ _ _ S3).
    rewrite R1, R2, !byte_of_to_N, <- app_assoc. reflexivity.
  - pose proof (to_N_lt b1) as H1. pose proof (to_N_lt b2) as H2.
    pose proof (to_N_lt b3) as H3.
    destruct (sextet_bounds _ _ _ H1 H2 H3) as (S1 & S2 & S3 & S4).
    destruct (regroup _ _ _ H1 H2 H3) as (R1 & R2 & R3).
    cbn [b64encode]. cbv zeta.
    rewrite (loop_data _ _ _ _ _ _ S1), (loop_data _ _ _ _ _ _ S2),
      (loop_data _ _ _ _ _ _ S3), (loop_data _ _ _ _ _ _ S4).
    rewrite R1, R2, R3, !byte_of_to_N, IH, <- !app_assoc. reflexivity.
Qed.

Lemma all_ascii_encode bs : all_ascii (b64encode bs) = true.
Proof.
  induction bs as [|b1|b1 b2|b1 b2 b3 rest IH] using list_ind3.
  - reflexivity.
  - pose proof (to_N_lt b1) as H1.
    destruct (sextet_bounds (Byte.to_N b1) 0 0 H1) as (S1 & S2 & _); [lia..|].
    change (N.shiftr 0 4) with 0%N in S2. rewrite N.lor_0_r in S2.
    cbn [b64encode all_ascii]. cbv zeta.
    destruct (b64_char_spec _ S1) as (_ & _ & ->).
    destruct (b64_char_spec _ S2) as (_ & _ & ->). reflexivity.
  - pose proof (to_N_lt b1) as H1. pose proof (to_N_lt b2) as H2.
    destruct (sextet_bounds (Byte.to_N b1) (Byte.to_N b2) 0 H1 H2) as (S1 & S2 & S3 & _);
      [lia|].
    change (N.shiftr 0 6) with 0%N in S3. rewrite N.lor_0_r in S3.
    cbn [b64encode all_ascii]. cbv zeta.
    destruct (b64_char_spec _ S1) as (_ & _ & ->).
    destruct (b64_char_spec _ S2) as (_ & _ & ->).
    destruct (b64_char_spec _ S3) as (_ & _ & ->). reflexivity.
  - pose proof (to_N_lt b1) as H1. pose proof (to_N_lt b2) as H2.
    pose proof (to_N_lt b3) as H3.
    destruct (sextet_bounds _ _ _ H1 H2 H3) as (S1 & S2 & S3 & S4).
    cbn [b64encode all_ascii]. cbv zeta.
    destruct (b64_char_spec _ S1) as (_ & _ & ->).
    destruct (b64_char_spec _ S2) as (_ & _ & ->).
    destruct (b64_char_spec _ S3) as (_ & _ & ->).
    destruct (b64_char_spec _ S4) as (_ & _ & ->). exact IH.
Qed.

(** Decoding the standard encoding of any bytes gives those bytes back. *)
Lemma b64decode_std_encode bs :
  b64decode_std (VStr (b64encode bs)) = Return bs.
Proof.
  unfold b64decode_std, a2b_base64.
  now rewrite all_ascii_encode, a2b_base64_loop_encode.
Qed.

(** ** The request helper *)

Section Helper.

Variable remote : Request -> HttpOutcome.
Variable m : Loaded.

(** The whole behaviour of the helper on one exchange: the request is
    sent once; a delivered value is returned as it is; a failure is
    printed and turned into [None]. *)
Lemma make_resemble_request_run text voice_uuid output_format w :
  let req := synthesis_request m text (default "55592656" voice_uuid)
               (default "mp3" output_format) in
  make_resemble_request remote m text voice_uuid output_format w =
  match failure_of (remote req) with
  | Some e =>
      (Return VNone,
       log (EvPrint ("Error making Resemble AI request: " +:+ str_exn e))
         (log (EvRequest req) w))
  | None =>
      (Return (default VNone (delivered (remote req))), log (EvRequest req) w)
  end.
Proof.
  intros req. unfold make_resemble_request, try_except, bind, client_send.
  fold req. destruct (remote req) as [e|r]; simpl; [reflexivity|].
  unfold raise_for_status, response_json, lift, ret, raise, print.
  destruct (is_success r); simpl; [|reflexivity].
  destruct (json_outcome r); reflexivity.
Qed.

Lemma failure_of_delivered o : failure_of o = None <-> is_Some (delivered o).
Proof.
  destruct o as [e|r]; simpl.
  - split; [discriminate | intros [? ?]; discriminate].
  - destruct (is_success r); [|split; [discriminate | intros [? ?]; discriminate]].
    destruct (json_outcome r); split; eauto; try discriminate.
    intros [? ?]; discriminate.
Qed.

(** C3: whatever happens while the request is sent, its status checked and
    its body decoded, [make_resemble_request] returns normally, never
    raises; it returns the decoded value when there is one and [None] when
    sending raised, the status was not 2xx or the body did not decode. *)
Theorem make_resemble_request_swallows text voice_uuid output_format w :
  fst (make_resemble_request remote m text voice_uuid output_format w) =
  Return
    (match remote (synthesis_request m text (default "55592656" voice_uuid)
                     (default "mp3" output_format)) with
     | SendRaises _ => VNone
     | Responded r =>
         if is_success r then
           match json_outcome r with
           | Return v => v
           | Raise _ => VNone
           end
         else VNone
     end).
Proof.
  rewrite make_resemble_request_run.
  destruct (remote _) as [e|r]; simpl; [reflexivity|].
  destruct (is_success r); simpl; [|reflexivity].
  destruct (json_outcome r); reflexivity.
Qed.

End Helper.

(** ** The synthesis operation *)

Section Synthesis.

Variable remote : Request -> HttpOutcome.
Variable b64decode : value -> result (list Byte.byte).
Variable m : Loaded.

Lemma truthy_lacks v :
  truthy v = false -> lacks_audio_content v = true.
Proof.
  destruct v as [| | | |s|l|d]; simpl; intros H;
    try (rewrite H; reflexivity); try reflexivity.
  - now destruct s.
  - now destruct l.
  - now destruct d.
Qed.

Lemma lacks_py_in v :
  truthy v = true -> lacks_audio_content v = true ->
  py_in "audio_content" v = Return false.
Proof.
  destruct v; simpl; intros Ht Hl;
    try discriminate; try (rewrite Ht in Hl; discriminate);
    f_equal; now apply negb_true_iff.
Qed.

(** No result: the call gives up after the helper printed its diagnostic. *)
Lemma generate_tts_no_result text voice_uuid output_format w e :
  failure_of (remote (tts_request m text voice_uuid output_format)) = Some e ->
  generate_tts remote b64decode m text voice_uuid output_format w =
  (Return "Unable to generate TTS audio.",
   log (EvPrint ("Error making Resemble AI request: " +:+ str_exn e))
     (log (EvRequest (tts_request m text voice_uuid output_format)) w)).
Proof.
  intros He. unfold generate_tts, bind.
  rewrite make_resemble_request_run. cbv zeta. simpl default.
  fold (tts_request m text voice_uuid output_format). rewrite He.
  reflexivity.
Qed.

(** A result: the helper hands it over and only the request is logged. *)
Lemma generate_tts_result text voice_uuid output_format w v :
  delivered (remote (tts_request m text voice_uuid output_format)) = Some v ->
  make_resemble_request remote m text
    (Some (default (generate_tts_voice_uuid_default m) voice_uuid))
    (Some (default "mp3" output_format)) w =
  (Return v, log (EvRequest (tts_request m text voice_uuid output_format)) w).
Proof.
  intros Hv. rewrite make_resemble_request_run. cbv zeta. simpl default.
  fold (tts_request m text voice_uuid output_format).
  destruct (failure_of _) as [e|] eqn:Hf.
  - assert (Hn : failure_of (remote (tts_request m text voice_uuid output_format)) <> None)
      by (rewrite Hf; discriminate).
    exfalso. apply Hn. apply failure_of_delivered. rewrite Hv. eauto.
  - now rewrite Hv.
Qed.

Lemma generate_tts_lacking text voice_uuid output_format w v :
  delivered (remote (tts_request m text voice_uuid output_format)) = Some v ->
  lacks_audio_content v = true ->
  generate_tts remote b64decode m text voice_uuid output_format w =
  (Return "Unable to generate TTS audio.",
   log (EvRequest (tts_request m text voice_uuid output_format)) w).
Proof.
  intros Hv Hl. unfold generate_tts, bind.
  rewrite (generate_tts_result _ _ _ _ _ Hv).
  destruct (truthy v) eqn:Ht; simpl.
  - unfold lift. rewrite (lacks_py_in _ Ht Hl). reflexivity.
  - reflexivity.
Qed.

Lemma dict_get_has key d a : dict_get key d = Some a -> dict_has key d = true.
Proof. unfold dict_has. now intros ->. Qed.

Lemma dict_get_truthy key d a : dict_get key d = Some a -> truthy (VDict d) = true.
Proof. destruct d; [discriminate | reflexivity]. Qed.

(** The [with] block of [generate_tts] on one world: nothing happens when
    opening is refused; otherwise the file is created or truncated, receives
    the data (its first [short_write] bytes when the write is refused), and
    the exception of the close, else of the write, is raised if there is
    one. *)
Lemma write_audio_run path data w :
  with_open_wb path (fun audio_file => file_write audio_file data) w =
  match fs_fault w (OpOpen path) with
  | Some e => (Raise e, w)
  | None =>
      let stored :=
        match fs_fault w (OpWrite path data) with
        | Some _ => take (short_write w path data) data
        | None => data
        end in
      let w2 := log (EvWrite path stored)
                  (with_files (<[path := stored]> (files w))
                     (log (EvOpenWb path) w)) in
      match fs_fault w (OpClose path) with
      | Some e => (Raise e, w2)
      | None =>
          match fs_fault w (OpWrite path data) with
          | Some e => (Raise e, w2)
          | None => (Return tt, w2)
          end
      end
  end.
Proof.
  unfold with_open_wb, open_wb, file_write, file_close, append_to.
  destruct (fs_fault w (OpOpen path)) as [e|]; [reflexivity|].
  unfold log, with_files. simpl.
  rewrite lookup_insert_eq. simpl. rewrite !insert_insert_eq.
  destruct (fs_fault w (OpWrite path data)) as [e1|]; simpl;
    destruct (fs_fault w (OpClose path)) as [e2|]; reflexivity.
Qed.

(** The three ways the block ends: the data is written; opening is refused
    and the world is untouched; or the file was opened and an exception
    follows, the file holding some content. *)
Lemma write_audio_cases path data w :
  let written content :=
    log (EvWrite path content)
      (with_files (<[path := content]> (files w)) (log (EvOpenWb path) w)) in
  let run := with_open_wb path (fun audio_file => file_write audio_file data) w in
  (writable w path data = true /\ run = (Return tt, written data)) \/
  (writable w path data = false /\ exists e, run = (Raise e, w)) \/
  (writable w path data = false /\
   exists e content, run = (Raise e, written content)).
Proof.
  intros written run. subst run. rewrite write_audio_run. unfold writable.
  destruct (fs_fault w (OpOpen path)) as [e|]; [right; left; eauto|].
  cbv zeta.
  destruct (fs_fault w (OpWrite path data)) as [e1|];
    destruct (fs_fault w (OpClose path)) as [e2|];
    try (right; right; split; [reflexivity|]; eexists; eexists; reflexivity).
  left. split; reflexivity.
Qed.

(** A result with an [audio_content] field: the field is decoded, and what
    follows depends on the decoder and on the file system alone. *)
Lemma generate_tts_audio text voice_uuid output_format w d a :
  delivered (remote (tts_request m text voice_uuid output_format)) = Some (VDict d) ->
  dict_get "audio_content" d = Some a ->
  generate_tts remote b64decode m text voice_uuid output_format w =
  let w1 := log (EvRequest (tts_request m text voice_uuid output_format)) w in
  let output_file := "output." +:+ default "mp3" output_format in
  match b64decode a with
  | Raise e => (Raise e, w1)
  | Return audio_bytes =>
      match with_open_wb output_file
              (fun audio_file => file_write audio_file audio_bytes) w1 with
      | (Return _, w2) =>
          (Return ("TTS audio generated and saved as " +:+ output_file), w2)
      | (Raise e, w2) => (Raise e, w2)
      end
  end.
Proof.
  intros Hv Ha. unfold generate_tts, bind.
  rewrite (generate_tts_result _ _ _ _ _ Hv).
  assert (Hin : py_in "audio_content" (VDict d) = Return true)
    by (cbn [py_in]; now rewrite (dict_get_has _ _ _ Ha)).
  assert (Hget : py_getitem (VDict d) "audio_content" = Return a)
    by (cbn [py_getitem]; now rewrite Ha).
  rewrite (dict_get_truthy _ _ _ Ha). unfold lift. rewrite Hin, Hget.
  cbn [negb]. unfold ret at 1. cbv iota beta.
  destruct (b64decode a) as [audio_bytes|e]; [|reflexivity].
  cbv zeta. simpl default.
  destruct (with_open_wb _ _ _) as [[[]|e] w2]; reflexivity.
Qed.

(** The same when the decoder raises. *)
Lemma generate_tts_audio_fault text voice_uuid output_format w d a e :
  delivered (remote (tts_request m text voice_uuid output_format)) = Some (VDict d) ->
  dict_get "audio_content" d = Some a ->
  b64decode a = Raise e ->
  generate_tts remote b64decode m text voice_uuid output_format w =
  (Raise e, log (EvRequest (tts_request m text voice_uuid output_format)) w).
Proof.
  intros Hv Ha Hb. rewrite (generate_tts_audio _ _ _ _ _ _ Hv Ha). cbv zeta.
  now rewrite Hb.
Qed.

(** The same when the decoder returns and the file can be written. *)
Lemma generate_tts_audio_written text voice_uuid output_format w d a audio_bytes :
  delivered (remote (tts_request m text voice_uuid output_format)) = Some (VDict d) ->
  dict_get "audio_content" d = Some a ->
  b64decode a = Return audio_bytes ->
  writable w ("output." +:+ default "mp3" output_format) audio_bytes = true ->
  generate_tts remote b64decode m text voice_uuid output_format w =
  let w1 := log (EvRequest (tts_request m text voice_uuid output_format)) w in
  let output_file := "output." +:+ default "mp3" output_format in
  (Return ("TTS audio generated and saved as " +:+ output_file),
   log (EvWrite output_file audio_bytes)
     (with_files (<[output_file := audio_bytes]> (files w))
        (log (EvOpenWb output_file) w1))).
Proof.
  intros Hv Ha Hb Hw. rewrite (generate_tts_audio _ _ _ _ _ _ Hv Ha). cbv zeta.
  rewrite Hb.
  destruct (write_audio_cases ("output." +:+ default "mp3" output_format) audio_bytes
              (log (EvRequest (tts_request m text voice_uuid output_format)) w))
    as [[_ ->]|[[Hn _]|[Hn _]]]; [reflexivity| |];
    change (writable w ("output." +:+ default "mp3" output_format) audio_bytes = false)
      in Hn; congruence.
Qed.

(** A result in which ["audio_content"] occurs but which has no such
    field, or a number or [True]: the membership test or the subscript
    raises [TypeError]. *)
Lemma generate_tts_shape_fault text voice_uuid output_format w v :
  delivered (remote (tts_request m text voice_uuid output_format)) = Some v ->
  lacks_audio_content v = false ->
  audio_field v = None ->
  exists e,
    exn_cls e = TypeError /\
    generate_tts remote b64decode m text voice_uuid output_format w =
    (Raise e, log (EvRequest (tts_request m text voice_uuid output_format)) w).
Proof.
  intros Hv Hl Hf. unfold generate_tts, bind.
  rewrite (generate_tts_result _ _ _ _ _ Hv).
  destruct v as [|b|n|q|s|l|d]; simpl in Hl, Hf.
  - discriminate.
  - apply negb_false_iff in Hl. subst b. eexists. split; [|reflexivity]. reflexivity.
  - apply negb_false_iff in Hl. cbn [truthy]. rewrite Hl.
    eexists. split; [|reflexivity]. reflexivity.
  - apply negb_false_iff in Hl. cbn [truthy]. rewrite Hl.
    eexists. split; [|reflexivity]. reflexivity.
  - apply negb_false_iff in Hl. destruct s as [|c s]; [discriminate|].
    cbn [truthy negb]. unfold lift. cbn [py_in]. rewrite Hl.
    eexists. split; [|reflexivity]. reflexivity.
  - apply negb_false_iff in Hl. destruct l as [|x l]; [discriminate|].
    cbn [truthy negb]. unfold lift. cbn [py_in]. rewrite Hl.
    eexists. split; [|reflexivity]. reflexivity.
  - apply negb_false_iff in Hl. unfold dict_has in Hl. rewrite Hf in Hl.
    discriminate.
Qed.

Lemma lacking_no_field v : lacks_audio_content v = true -> audio_field v = None.
Proof.
  destruct v; simpl; try reflexivity. unfold dict_has.
  now destruct (dict_get _ _).
Qed.

(** The five ways a call ends, with the world it leaves: it gives up after
    a failed exchange, the diagnostic printed; it gives up on a result
    without the word; it succeeds, the audio written; it raises before any
    file was opened; it raises after the output file was opened. *)
Lemma generate_tts_cases text voice_uuid output_format w :
  let req := tts_request m text voice_uuid output_format in
  let output_file := "output." +:+ default "mp3" output_format in
  let w1 := log (EvRequest req) w in
  let written content :=
    log (EvWrite output_file content)
      (with_files (<[output_file := content]> (files w))
         (log (EvOpenWb output_file) w1)) in
  let run := generate_tts remote b64decode m text voice_uuid output_format w in
  (exists line, run = (Return "Unable to generate TTS audio.", log (EvPrint line) w1)) \/
  run = (Return "Unable to generate TTS audio.", w1) \/
  (exists audio_bytes,
      run = (Return ("TTS audio generated and saved as " +:+ output_file),
             written audio_bytes)) \/
  (exists e, run = (Raise e, w1)) \/
  (exists e content, run = (Raise e, written content)).
Proof.
  intros req output_file w1 written run. subst run.
  destruct (failure_of (remote req)) as [e|] eqn:Hf.
  { left. rewrite (generate_tts_no_result _ _ _ _ _ Hf). eauto. }
  apply failure_of_delivered in Hf. destruct Hf as [v Hv].
  destruct (lacks_audio_content v) eqn:Hl.
  { right. left. apply (generate_tts_lacking _ _ _ _ _ Hv Hl). }
  destruct (audio_field v) as [a|] eqn:Ha.
  - destruct v; try discriminate. simpl in Ha.
    rewrite (generate_tts_audio _ _ _ _ _ _ Hv Ha). cbv zeta.
    destruct (b64decode a) as [audio_bytes|e]; [|do 3 right; left; eauto].
    fold req output_file w1.
    destruct (write_audio_cases output_file audio_bytes w1)
      as [[_ ->]|[[_ (e & ->)]|[_ (e & content & ->)]]].
    + right. right. left. exists audio_bytes. reflexivity.
    + do 3 right. left. eauto.
    + do 4 right. exists e, content. reflexivity.
  - destruct (generate_tts_shape_fault text voice_uuid output_format w _ Hv Hl Ha)
      as (e & _ & ->).
    do 3 right. left. eauto.
Qed.

(** Every call sends exactly one request, the one built from its
    arguments, whatever the exchange results in. *)
Lemma generate_tts_requests text voice_uuid output_format w :
  requests_of
    (trace (snd (generate_tts remote b64decode m text voice_uuid output_format w))) =
  (requests_of (trace w) ++ [tts_request m text voice_uuid output_format])%list.
Proof.
  destruct (generate_tts_cases text voice_uuid output_format w)
    as [(line & ->)|[->|[(audio_bytes & ->)|[(e & ->)|(e & content & ->)]]]];
    cbn [snd trace log with_files]; rewrite !requests_of_app; simpl;
    now rewrite ?app_nil_r.
Qed.

(** Calls never consume random UUIDs. *)
Lemma generate_tts_draws text voice_uuid output_format w :
  draws (snd (generate_tts remote b64decode m text voice_uuid output_format w)) =
  draws w.
Proof.
  now destruct (generate_tts_cases text voice_uuid output_format w)
    as [(line & ->)|[->|[(audio_bytes & ->)|[(e & ->)|(e & content & ->)]]]].
Qed.

Lemma delivered_ok req r v :
  remote req = Responded r -> is_success r = true ->
  json_outcome r = Return v -> delivered (remote req) = Some v.
Proof. intros -> Hs Hj. simpl. now rewrite Hs, Hj. Qed.

(** C1 (as amended): when the service answers with a 2xx status and a JSON
    object whose [audio_content] is a string the base64 decoder accepts, and
    the file system accepts to open [output.<output_format>] for writing, to
    write the decoded bytes and to close it, [generate_tts] returns the
    message ending in that file name, and that file then holds exactly the
    decoded bytes; it is the only file touched, opened once and written
    once. *)
Theorem generate_tts_writes_decoded_audio
    text voice_uuid output_format w r d s audio_bytes :
  remote (tts_request m text voice_uuid output_format) = Responded r ->
  is_success r = true ->
  json_outcome r = Return (VDict d) ->
  dict_get "audio_content" d = Some (VStr s) ->
  b64decode (VStr s) = Return audio_bytes ->
  writable w ("output." +:+ default "mp3" output_format) audio_bytes = true ->
  let output_file := "output." +:+ default "mp3" output_format in
  let run := generate_tts remote b64decode m text voice_uuid output_format w in
  fst run = Return ("TTS audio generated and saved as " +:+ output_file) /\
  is_substring output_file ("TTS audio generated and saved as " +:+ output_file) = true /\
  files (snd run) !! output_file = Some audio_bytes /\
  (forall path, path <> output_file -> files (snd run) !! path = files w !! path) /\
  fs_events (trace (snd run)) =
  (fs_events (trace w) ++ [EvOpenWb output_file; EvWrite output_file audio_bytes])%list.
Proof.
  intros Hr Hs Hj Ha Hb Hw output_file run. subst run.
  rewrite (generate_tts_audio_written _ _ _ _ _ _ _
             (delivered_ok _ _ _ Hr Hs Hj) Ha Hb Hw).
  cbv zeta. fold output_file. cbn [fst snd].
  split; [reflexivity|]. split; [apply is_substring_append|].
  cbn [files trace log with_files].
  split; [apply lookup_insert_eq|]. split.
  - intros path Hne. now apply lookup_insert_ne.
  - rewrite !fs_events_app. simpl. rewrite app_nil_r, <- app_assoc. reflexivity.
Qed.

(** C4: every synthesis call sends one request, a POST to the synthesis
    endpoint whose [Authorization] header is ["Bearer "] followed by the
    credential, whose JSON body has exactly the fields [voice_uuid],
    [data] (the text), [sample_rate] (48000) and [output_format], and
    whose timeout is 30 seconds. *)
Theorem synthesis_request_well_formed text voice_uuid output_format w :
  let req := tts_request m text voice_uuid output_format in
  let run := generate_tts remote b64decode m text voice_uuid output_format w in
  requests_of (trace (snd run)) = (requests_of (trace w) ++ [req])%list /\
  req_method req = POST /\
  req_url req = RESEMBLE_SYNTHESIZE_URL /\
  header "Authorization" (req_headers req) = Some ("Bearer " +:+ RESEMBLE_API_KEY m) /\
  req_json req =
    Some (VDict [("voice_uuid",
                  VStr (default (generate_tts_voice_uuid_default m) voice_uuid));
                 ("data", VStr text);
                 ("sample_rate", VInt 48000);
                 ("output_format", VStr (default "mp3" output_format))]) /\
  req_timeout req = 30%Q.
Proof.
  intros req run. split; [apply generate_tts_requests|].
  repeat split.
Qed.


(** C10: in a call where decoding [audio_content] raises, nothing is
    opened or written: the files are those of before the call, the output
    file included, and the trace has no new file-system operation. *)
Theorem generate_tts_decode_fault_writes_nothing
    text voice_uuid output_format w r d a e :
  remote (tts_request m text voice_uuid output_format) = Responded r ->
  is_success r = true ->
  json_outcome r = Return (VDict d) ->
  dict_get "audio_content" d = Some a ->
  b64decode a = Raise e ->
  let run := generate_tts remote b64decode m text voice_uuid output_format w in
  files (snd run) = files w /\
  files (snd run) !! ("output." +:+ default "mp3" output_format) =
    files w !! ("output." +:+ default "mp3" output_format) /\
  fs_events (trace (snd run)) = fs_events (trace w).
Proof.
  intros Hr Hs Hj Ha Hb run. subst run.
  rewrite (generate_tts_audio_fault _ _ _ _ _ _ _
             (delivered_ok _ _ _ Hr Hs Hj) Ha Hb).
  cbn [snd]. repeat split. apply fs_events_log_request.
Qed.

(** The two ways of giving up: no result, or a result in which
    ["audio_content"] does not occur.  Either way the message is returned
    and no file is touched. *)
Lemma generate_tts_gives_up text voice_uuid output_format w :
  unusable (remote (tts_request m text voice_uuid output_format)) = true ->
  let run := generate_tts remote b64decode m text voice_uuid output_format w in
  fst run = Return "Unable to generate TTS audio." /\
  files (snd run) = files w /\
  fs_events (trace (snd run)) = fs_events (trace w).
Proof.
  intros Hu run. subst run. unfold unusable in Hu.
  destruct (failure_of (remote (tts_request m text voice_uuid output_format)))
    as [e|] eqn:Hf.
  - rewrite (generate_tts_no_result _ _ _ _ _ Hf). cbn [fst snd].
    repeat split. now rewrite fs_events_log_print, fs_events_log_request.
  - apply failure_of_delivered in Hf. destruct Hf as [v Hv]. rewrite Hv in Hu.
    rewrite (generate_tts_lacking _ _ _ _ _ Hv Hu). cbn [fst snd].
    repeat split. apply fs_events_log_request.
Qed.

End Synthesis.

(** Where the guard of [generate_tts] does return the message: a call whose
    exchange yields no result (sending raised, the status was not 2xx, the
    body did not decode) or a result in which ["audio_content"] does not
    occur (a JSON object without that key, an array or string without it,
    or a false value) returns exactly ["Unable to generate TTS audio."] and
    touches no file; any two such calls, a transport failure and a missing
    field in particular, give the same return value and leave the same
    files. *)
Theorem generate_tts_unable
    remote1 remote2 b64decode m text voice_uuid output_format w :
  unusable (remote1 (tts_request m text voice_uuid output_format)) = true ->
  unusable (remote2 (tts_request m text voice_uuid output_format)) = true ->
  let run1 := generate_tts remote1 b64decode m text voice_uuid output_format w in
  let run2 := generate_tts remote2 b64decode m text voice_uuid output_format w in
  fst run1 = Return "Unable to generate TTS audio." /\
  files (snd run1) = files w /\
  fs_events (trace (snd run1)) = fs_events (trace w) /\
  fst run2 = fst run1 /\
  files (snd run2) = files (snd run1) /\
  fs_events (trace (snd run2)) = fs_events (trace (snd run1)).
Proof.
  intros H1 H2 run1 run2.
  destruct (generate_tts_gives_up remote1 b64decode m text voice_uuid output_format w H1)
    as (R1 & F1 & E1).
  destruct (generate_tts_gives_up remote2 b64decode m text voice_uuid output_format w H2)
    as (R2 & F2 & E2).
  fold run1 in R1, F1, E1. fold run2 in R2, F2, E2.
  repeat split; congruence.
Qed.

Lemma generate_tts_unable_witness :
  unusable (remote_timeout (tts_request sample_loaded "hello" None None)) = true /\
  unusable (remote_ok (VDict [("detail", VStr "no audio")])
              (tts_request sample_loaded "hello" None None)) = true /\
  fst (generate_tts remote_timeout b64decode_std sample_loaded "hello" None None
         fresh_world) = Return "Unable to generate TTS audio." /\
  fst (generate_tts (remote_ok (VDict [("detail", VStr "no audio")])) b64decode_std
         sample_loaded "hello" None None fresh_world) =
  fst (generate_tts remote_timeout b64decode_std sample_loaded "hello" None None
         fresh_world).
Proof.
  split; [reflexivity|]. split; [reflexivity|].
  pose proof (generate_tts_unable remote_timeout
                (remote_ok (VDict [("detail", VStr "no audio")]))
                b64decode_std sample_loaded "hello" None None fresh_world
                eq_refl eq_refl) as H.
  cbv zeta in H. destruct H as (R1 & _ & _ & R2 & _).
  split; [exact R1 | exact R2].
Defined.

(** C2 on the code: a 2xx reply whose body is the number [7] is a result
    without an [audio_content] field, yet the call does not return the
    message: inside the check of the result the membership test raises
    [TypeError], which leaves the call. *)
Lemma generate_tts_number_result_raises :
  delivered (remote_ok (VInt 7) (tts_request sample_loaded "hello" None None)) =
    Some (VInt 7) /\
  audio_field (VInt 7) = None /\
  fst (generate_tts (remote_ok (VInt 7)) b64decode_std sample_loaded "hello" None None
         fresh_world) =
    Raise (mkExn TypeError "argument of type 'int' is not iterable") /\
  fst (generate_tts (remote_ok (VInt 7)) b64decode_std sample_loaded "hello" None None
         fresh_world) <>
    Return "Unable to generate TTS audio.".
Proof.
  split; [reflexivity|]. split; [reflexivity|].
  assert (H : fst (generate_tts (remote_ok (VInt 7)) b64decode_std sample_loaded
                     "hello" None None fresh_world) =
              Raise (mkExn TypeError "argument of type 'int' is not iterable"))
    by reflexivity.
  split; [exact H|]. rewrite H. discriminate.
Qed.

(** What importing the module computes. *)
Lemma import_module_run dotenv w :
  import_module dotenv w =
  (Return (mkLoaded
             (default "Not found" ((environ w ∪ dotenv) !! "RESEMBLE_API_KEY"))
             (str_take 8 (entropy w (draws w)))),
   with_draws (S (draws w)) (with_environ (environ w ∪ dotenv) w)).
Proof. reflexivity. Qed.

(** C8: importing the module draws one UUID and keeps its first eight
    characters as the default of [voice_uuid]; any two calls of that process
    that omit [voice_uuid] send that same value, and no call draws a UUID. *)
Theorem default_voice_uuid_fixed_at_import dotenv w0 :
  exists m w1,
    import_module dotenv w0 = (Return m, w1) /\
    draws w1 = S (draws w0) /\
    generate_tts_voice_uuid_default m = str_take 8 (entropy w0 (draws w0)) /\
    forall remote1 remote2 b64decode1 b64decode2 text1 text2 fmt1 fmt2 wa wb,
      let run1 := generate_tts remote1 b64decode1 m text1 None fmt1 wa in
      let run2 := generate_tts remote2 b64decode2 m text2 None fmt2 wb in
      exists req1 req2,
        requests_of (trace (snd run1)) = (requests_of (trace wa) ++ [req1])%list /\
        requests_of (trace (snd run2)) = (requests_of (trace wb) ++ [req2])%list /\
        sent_voice_uuid req1 = Some (VStr (str_take 8 (entropy w0 (draws w0)))) /\
        sent_voice_uuid req2 = sent_voice_uuid req1 /\
        draws (snd run1) = draws wa /\
        draws (snd run2) = draws wb.
Proof.
  rewrite import_module_run.
  set (m := mkLoaded _ _). exists m. eexists.
  split; [reflexivity|]. split; [reflexivity|]. split; [reflexivity|].
  intros. exists (tts_request m text1 None fmt1), (tts_request m text2 None fmt2).
  subst run1 run2. rewrite !generate_tts_requests, !generate_tts_draws.
  repeat split.
Qed.

(** ** Concrete runs of the synthesis operation *)

(** A reply carrying the five bytes of ["hello"]. *)
Lemma generate_tts_writes_decoded_audio_witness :
  b64decode_std (VStr "aGVsbG8=") = Return (bytes_of_string "hello") /\
  fst (generate_tts
         (remote_ok (VDict [("audio_content", VStr "aGVsbG8=");
                            ("duration", VFloat (1 # 2))]))
         b64decode_std sample_loaded "hello" None (Some "wav") fresh_world) =
    Return "TTS audio generated and saved as output.wav" /\
  files (snd (generate_tts
                (remote_ok (VDict [("audio_content", VStr "aGVsbG8=");
                                   ("duration", VFloat (1 # 2))]))
                b64decode_std sample_loaded "hello" None (Some "wav") fresh_world))
    !! "output.wav" = Some (bytes_of_string "hello").
Proof.
  split; [reflexivity|].
  pose proof (generate_tts_writes_decoded_audio
                (remote_ok (VDict [("audio_content", VStr "aGVsbG8=");
                                   ("duration", VFloat (1 # 2))]))
                b64decode_std sample_loaded "hello" None (Some "wav") fresh_world
                _ _ "aGVsbG8=" (bytes_of_string "hello")
                eq_refl eq_refl eq_refl eq_refl eq_refl eq_refl) as H.
  cbv zeta in H. destruct H as (R & _ & F & _).
  split; [exact R | exact F].
Defined.

(** C1 as stated fails where the output file cannot be opened: with the
    same kind of reply and [output_format = "a/b"], in a working directory
    that has no directory [output.a], [open] raises; the call ends with that
    exception instead of the message, and no file is written. *)
Lemma generate_tts_unopenable_output_raises :
  b64decode_std (VStr "aGVsbG8=") = Return (bytes_of_string "hello") /\
  fst (generate_tts (remote_ok (VDict [("audio_content", VStr "aGVsbG8=")]))
         b64decode_std sample_loaded "hello" None (Some "a/b")
         world_without_directory) =
    Raise (mkExn OSError "[Errno 2] No such file or directory: 'output.a/b'") /\
  fst (generate_tts (remote_ok (VDict [("audio_content", VStr "aGVsbG8=")]))
         b64decode_std sample_loaded "hello" None (Some "a/b")
         world_without_directory) <>
    Return "TTS audio generated and saved as output.a/b" /\
  files (snd (generate_tts (remote_ok (VDict [("audio_content", VStr "aGVsbG8=")]))
                b64decode_std sample_loaded "hello" None (Some "a/b")
                world_without_directory)) !! "output.a/b" = None /\
  fs_events
    (trace (snd (generate_tts (remote_ok (VDict [("audio_content", VStr "aGVsbG8=")]))
                   b64decode_std sample_loaded "hello" None (Some "a/b")
                   world_without_directory))) = [].
Proof.
  split; [reflexivity|].
  assert (H : generate_tts (remote_ok (VDict [("audio_content", VStr "aGVsbG8=")]))
                b64decode_std sample_loaded "hello" None (Some "a/b")
                world_without_directory =
              (Raise (mkExn OSError "[Errno 2] No such file or directory: 'output.a/b'"),
               log (EvRequest (tts_request sample_loaded "hello" None (Some "a/b")))
                 world_without_directory))
    by reflexivity.
  rewrite H. cbn [fst snd]. split; [reflexivity|]. split; [discriminate|].
  split; [apply lookup_empty | reflexivity].
Qed.


(** A reply whose [audio_content] is not a string at all. *)
Lemma generate_tts_decode_fault_writes_nothing_witness :
  is_return (b64decode_std VNone) = false /\
  files (snd (generate_tts (remote_ok (VDict [("audio_content", VNone)]))
                b64decode_std sample_loaded "hello" None None fresh_world)) =
    files fresh_world /\
  fs_events (trace (snd (generate_tts (remote_ok (VDict [("audio_content", VNone)]))
                           b64decode_std sample_loaded "hello" None None fresh_world))) =
    fs_events (trace fresh_world).
Proof.
  split; [reflexivity|].
  pose proof (generate_tts_decode_fault_writes_nothing
                (remote_ok (VDict [("audio_content", VNone)]))
                b64decode_std sample_loaded "hello" None None fresh_world
                _ _ VNone _ eq_refl eq_refl eq_refl eq_refl eq_refl) as H.
  cbv zeta in H. destruct H as (F & _ & E).
  split; [exact F | exact E].
Defined.

(** X8: with the standard decoder, whatever bytes the service encoded in
    [audio_content], the output file holds them after the call, provided
    the file system accepts to open, write and close that file. *)
Lemma generate_tts_writes_encoded_audio
    remote m text voice_uuid output_format w r d audio_bytes :
  remote (tts_request m text voice_uuid output_format) = Responded r ->
  is_success r = true ->
  json_outcome r = Return (VDict d) ->
  dict_get "audio_content" d = Some (VStr (b64encode audio_bytes)) ->
  writable w ("output." +:+ default "mp3" output_format) audio_bytes = true ->
  fst (generate_tts remote b64decode_std m text voice_uuid output_format w) =
    Return ("TTS audio generated and saved as output." +:+ default "mp3" output_format) /\
  files (snd (generate_tts remote b64decode_std m text voice_uuid output_format w))
    !! ("output." +:+ default "mp3" output_format) = Some audio_bytes.
Proof.
  intros Hr Hs Hj Ha Hw.
  rewrite (generate_tts_audio_written _ _ _ _ _ _ _ _ _ _
             (delivered_ok _ _ _ _ Hr Hs Hj) Ha (b64decode_std_encode _) Hw).
  cbv zeta. cbn [fst snd files log with_files].
  split; [reflexivity | apply lookup_insert_eq].
Qed.

(** ** The listing operation *)

Section Listing.

Variable remote : Request -> HttpOutcome.
Variable m : Loaded.

(** The whole behaviour of [list_voices] on one exchange. *)
Lemma list_voices_run page page_size w :
  let req := voices_request m (default 1 page) (default 10 page_size) in
  list_voices remote m page page_size w =
  match failure_of (remote req) with
  | Some e =>
      let error_message := "Error retrieving voices: " +:+ str_exn e in
      (Return (VDict [("error", VStr error_message)]),
       log (EvPrint error_message) (log (EvRequest req) w))
  | None =>
      (Return (default VNone (delivered (remote req))), log (EvRequest req) w)
  end.
Proof.
  intros req. unfold list_voices, try_except, bind, client_send.
  fold req. destruct (remote req) as [e|r]; simpl; [reflexivity|].
  unfold raise_for_status, response_json, lift, ret, raise, print.
  destruct (is_success r); simpl; [|reflexivity].
  destruct (json_outcome r); reflexivity.
Qed.

Lemma delivered_none_failure o :
  delivered o = None -> exists e, failure_of o = Some e.
Proof.
  destruct (failure_of o) as [e|] eqn:Hf; [eauto|].
  apply failure_of_delivered in Hf. destruct Hf as [v Hv]. congruence.
Qed.

(** C5: a listing call whose exchange fails (sending raised, as on a
    connection error or a timeout, or the status was not 2xx, or the body
    did not decode) returns normally a dictionary with the single key
    ["error"], bound to a non-empty string. *)
Theorem list_voices_failure page page_size w :
  delivered (remote (voices_request m (default 1 page) (default 10 page_size))) = None ->
  exists error_message,
    fst (list_voices remote m page page_size w) =
      Return (VDict [("error", VStr error_message)]) /\
    error_message <> "".
Proof.
  intros Hd. apply delivered_none_failure in Hd. destruct Hd as [e He].
  rewrite list_voices_run. cbv zeta. rewrite He. cbn [fst].
  eexists. split; [reflexivity|]. discriminate.
Qed.

(** C6: a listing call sends one request whose query parameters are
    [page] and [page_size] with the values it was given (1 and 10 when
    omitted), whatever they are; the call never raises; and when the
    exchange succeeds the value decoded from the body is returned as it
    is. *)
Theorem list_voices_forwards (page page_size : option Z) w :
  let req := voices_request m (default 1 page) (default 10 page_size) in
  let run := list_voices remote m page page_size w in
  requests_of (trace (snd run)) = (requests_of (trace w) ++ [req])%list /\
  req_method req = GET /\
  req_url req = RESEMBLE_VOICES_URL /\
  req_params req =
    [("page", VInt (default 1 page)); ("page_size", VInt (default 10 page_size))] /\
  is_return (fst run) = true /\
  (forall r body,
      remote req = Responded r -> is_success r = true ->
      json_outcome r = Return body ->
      fst run = Return body).
Proof.
  intros req run. subst run. rewrite list_voices_run. cbv zeta. fold req.
  split.
  { destruct (failure_of (remote req)); cbn [snd].
    - now rewrite requests_of_log_print, requests_of_log_request.
    - apply requests_of_log_request. }
  repeat split.
  - now destruct (failure_of (remote req)).
  - intros r body Hr Hs Hj. rewrite Hr. simpl. now rewrite Hs, Hj.
Qed.

End Listing.

Lemma list_voices_failure_witness :
  delivered (remote_unavailable (voices_request sample_loaded 1 10)) = None /\
  exists error_message,
    fst (list_voices remote_unavailable sample_loaded None None fresh_world) =
      Return (VDict [("error", VStr error_message)]) /\
    error_message <> "".
Proof.
  split; [reflexivity|].
  exact (list_voices_failure remote_unavailable sample_loaded None None fresh_world
           eq_refl).
Defined.

Example list_voices_unavailable :
  fst (list_voices remote_unavailable sample_loaded None None fresh_world) =
  Return (VDict [("error",
                  VStr "Error retrieving voices: Server error '503 Service Unavailable'")]).
Proof. reflexivity. Qed.

Lemma list_voices_forwards_witness :
  requests_of (trace (snd (list_voices (remote_ok sample_voices) sample_loaded
                             (Some 2) (Some (-5)) fresh_world))) =
    [voices_request sample_loaded 2 (-5)] /\
  req_params (voices_request sample_loaded 2 (-5)) =
    [("page", VInt 2); ("page_size", VInt (-5))] /\
  fst (list_voices (remote_ok sample_voices) sample_loaded (Some 2) (Some (-5))
         fresh_world) = Return sample_voices.
Proof.
  pose proof (list_voices_forwards (remote_ok sample_voices) sample_loaded
                (Some 2) (Some (-5)) fresh_world) as H.
  cbv zeta in H. destruct H as (T & _ & _ & P & _ & B).
  split; [exact T|]. split; [exact P|].
  exact (B _ sample_voices eq_refl eq_refl eq_refl).
Defined.

(** ** Process start *)

(** The credential is the variable's value when the environment or the
    [.env] file sets it, and the placeholder otherwise; importing never
    raises. *)
Lemma import_module_credential dotenv w :
  exists m w1,
    import_module dotenv w = (Return m, w1) /\
    RESEMBLE_API_KEY m =
      match environ w !! "RESEMBLE_API_KEY" with
      | Some key => key
      | None => default "Not found" (dotenv !! "RESEMBLE_API_KEY")
      end.
Proof.
  rewrite import_module_run. eexists. eexists. split; [reflexivity|].
  cbn [RESEMBLE_API_KEY]. rewrite lookup_union.
  destruct (environ w !! "RESEMBLE_API_KEY") as [k|]; simpl.
  - now destruct (dotenv !! "RESEMBLE_API_KEY").
  - now destruct (dotenv !! "RESEMBLE_API_KEY").
Qed.

(** What the entry block does: the two warning lines are printed exactly
    when the credential is the empty string; the server is then started. *)
Lemma main_run m w :
  main m w =
  (Return tt,
   log (EvRun "stdio")
     (match RESEMBLE_API_KEY m with
      | EmptyString =>
          log (EvPrint "Set it using: export RESEMBLE_API_KEY='your-api-key'")
            (log (EvPrint "Warning: RESEMBLE_API_KEY environment variable is not set.") w)
      | String _ _ => w
      end)).
Proof. unfold main, bind. simpl. now destruct (RESEMBLE_API_KEY m). Qed.

(** With the variable absent from the environment and from [.env], the
    script prints nothing before it starts serving. *)
Lemma run_script_credential_absent dotenv w :
  environ w !! "RESEMBLE_API_KEY" = None ->
  dotenv !! "RESEMBLE_API_KEY" = None ->
  exists w',
    run_script dotenv w = (Return tt, w') /\
    trace w' = (trace w ++ [EvRun "stdio"])%list.
Proof.
  intros He Hd. unfold run_script, bind. rewrite import_module_run, main_run.
  cbn [RESEMBLE_API_KEY]. rewrite lookup_union, He, Hd. simpl.
  eexists. split; reflexivity.
Qed.

(** With the variable set to the empty string the warning is printed. *)
Lemma run_script_credential_empty dotenv w :
  environ w !! "RESEMBLE_API_KEY" = Some "" ->
  prints_of (trace (snd (run_script dotenv w))) =
  (prints_of (trace w) ++
   ["Warning: RESEMBLE_API_KEY environment variable is not set.";
    "Set it using: export RESEMBLE_API_KEY='your-api-key'"])%list.
Proof.
  intros He. unfold run_script, bind. rewrite import_module_run, main_run.
  cbn [RESEMBLE_API_KEY]. rewrite lookup_union, He.
  assert (Hk : default "Not found" (Some "" ∪ dotenv !! "RESEMBLE_API_KEY") = "")
    by now destruct (dotenv !! "RESEMBLE_API_KEY").
  rewrite Hk. cbn [snd trace log with_draws with_environ].
  unfold prints_of. rewrite !omap_app. simpl.
  rewrite ?app_nil_r, <- ?app_assoc. reflexivity.
Qed.

(** C9 on the code: started without the credential variable, the process
    takes ["Not found"] as its credential and starts serving, and it prints
    no warning: the trace of the whole start is the server start alone. *)
Theorem missing_credential_not_warned :
  environ fresh_world !! "RESEMBLE_API_KEY" = None /\
  (exists m w1,
      import_module ∅ fresh_world = (Return m, w1) /\
      RESEMBLE_API_KEY m = "Not found") /\
  (exists w',
      run_script ∅ fresh_world = (Return tt, w') /\
      prints_of (trace w') = [] /\
      trace w' = [EvRun "stdio"]).
Proof.
  assert (He : environ fresh_world !! "RESEMBLE_API_KEY" = None) by apply lookup_empty.
  assert (Hd : (∅ : gmap string string) !! "RESEMBLE_API_KEY" = None) by apply lookup_empty.
  split; [exact He|]. split.
  - destruct (import_module_credential ∅ fresh_world) as (m & w1 & Hi & Hk).
    exists m, w1. split; [exact Hi|]. now rewrite Hk, He, Hd.
  - destruct (run_script_credential_absent ∅ fresh_world He Hd) as (w' & Hr & Ht).
    exists w'. split; [exact Hr|]. rewrite Ht. split; reflexivity.
Qed.

(** ** The decoder and the operators on concrete values *)

(** Only a string can be decoded: any other JSON value is a [TypeError]. *)
Lemma b64decode_std_not_a_string v :
  (forall s, v <> VStr s) ->
  exists e, b64decode_std v = Raise e /\ exn_cls e = TypeError.
Proof.
  intros Hv. destruct v; try (eexists; split; reflexivity).
  now destruct (Hv s).
Qed.

Example b64decode_hello :
  b64decode_std (VStr "aGVsbG8=") = Return (bytes_of_string "hello").
Proof. reflexivity. Qed.

Example b64decode_skips_foreign_characters :
  b64decode_std (VStr "aGV sbG8=!") = Return (bytes_of_string "hello").
Proof. reflexivity. Qed.

Example b64decode_missing_padding :
  b64decode_std (VStr "aGVsbG8") = Raise (mkExn BinasciiError "Incorrect padding").
Proof. reflexivity. Qed.

Example b64decode_number :
  b64decode_std (VInt 3) =
  Raise (mkExn TypeError
           "argument should be a bytes-like object or ASCII string, not 'int'").
Proof. reflexivity. Qed.

Example py_in_substring :
  py_in "audio_content" (VStr "no audio_content here") = Return true.
Proof. reflexivity. Qed.

(** A reply that is a string mentioning the field passes the membership
    test and fails at the subscript. *)
Example generate_tts_string_result :
  fst (generate_tts (remote_ok (VStr "audio_content missing")) b64decode_std
         sample_loaded "hello" None None fresh_world) =
  Raise (mkExn TypeError "string indices must be integers, not 'str'").
Proof. reflexivity. Qed.

Example generate_tts_timeout :
  fst (generate_tts remote_timeout b64decode_std sample_loaded "hello" None None
         fresh_world) = Return "Unable to generate TTS audio.".
Proof. reflexivity. Qed.

(** * Further properties of the operations *)

Lemma prints_of_app t1 t2 :
  prints_of (t1 ++ t2) = (prints_of t1 ++ prints_of t2)%list.
Proof. unfold prints_of. apply omap_app. Qed.


(** ** Effects of a synthesis call *)

Section SynthesisEffects.

Variable remote : Request -> HttpOutcome.
Variable b64decode : value -> result (list Byte.byte).
Variable m : Loaded.



(** The fourth way on a full disk: the output file has been created, it is
    empty, and the exception of the refused write leaves the call. *)
Example generate_tts_refused_write :
  fst (generate_tts (remote_ok (VDict [("audio_content", VStr "aGVsbG8=")]))
         b64decode_std sample_loaded "hello" None None world_disk_full) =
    Raise (mkExn OSError "[Errno 28] No space left on device") /\
  files (snd (generate_tts (remote_ok (VDict [("audio_content", VStr "aGVsbG8=")]))
                b64decode_std sample_loaded "hello" None None world_disk_full))
    !! "output.mp3" = Some [] /\
  fs_events
    (trace (snd (generate_tts (remote_ok (VDict [("audio_content", VStr "aGVsbG8=")]))
                   b64decode_std sample_loaded "hello" None None world_disk_full))) =
    [EvOpenWb "output.mp3"; EvWrite "output.mp3" []].
Proof.
  rewrite (generate_tts_audio (remote_ok (VDict [("audio_content", VStr "aGVsbG8=")]))
             b64decode_std sample_loaded "hello" None None world_disk_full
             [("audio_content", VStr "aGVsbG8=")] (VStr "aGVsbG8=") eq_refl eq_refl).
  cbv zeta.
  change (b64decode_std (VStr "aGVsbG8=")) with (Return (bytes_of_string "hello")).
  cbv iota beta. rewrite write_audio_run.
  cbn [fs_fault short_write world_disk_full log with_files take fst snd files trace].
  split; [reflexivity|]. split; [apply lookup_insert_eq | reflexivity].
Qed.



(** X4: a delivered value in which ["audio_content"] occurs without being a
    field of an object (an array holding that string, a string holding that
    text), and likewise a non-zero number or [True], makes the call raise a
    [TypeError]; no file is touched and nothing is printed. *)
Theorem generate_tts_not_an_object text voice_uuid output_format w r v :
  remote (tts_request m text voice_uuid output_format) = Responded r ->
  is_success r = true ->
  json_outcome r = Return v ->
  lacks_audio_content v = false ->
  audio_field v = None ->
  let run := generate_tts remote b64decode m text voice_uuid output_format w in
  (exists e, fst run = Raise e /\ exn_cls e = TypeError) /\
  files (snd run) = files w /\
  fs_events (trace (snd run)) = fs_events (trace w) /\
  prints_of (trace (snd run)) = prints_of (trace w).
Proof.
  intros Hr Hs Hj Hl Ha run. subst run.
  destruct (generate_tts_shape_fault remote b64decode m text voice_uuid
              output_format w _ (delivered_ok _ _ _ _ Hr Hs Hj) Hl Ha)
    as (e & Hc & ->).
  cbn [fst snd]. split; [eauto|]. split; [reflexivity|].
  split; [apply fs_events_log_request|].
  cbn [trace log]. rewrite prints_of_app. apply app_nil_r.
Qed.

(** X10: a reply whose status is outside 200..299 is never looked into:
    whatever its body holds, the call returns the message, touches no file,
    and prints one line made of the helper's prefix and the text of the
    status error. *)
Theorem generate_tts_rejects_non_2xx text voice_uuid output_format w r :
  remote (tts_request m text voice_uuid output_format) = Responded r ->
  status_code r < 200 \/ 299 < status_code r ->
  let run := generate_tts remote b64decode m text voice_uuid output_format w in
  fst run = Return "Unable to generate TTS audio." /\
  files (snd run) = files w /\
  prints_of (trace (snd run)) =
    (prints_of (trace w) ++
     ["Error making Resemble AI request: " +:+ status_text r])%list.
Proof.
  intros Hr Hs run. subst run.
  assert (Hn : is_success r = false).
  { unfold is_success. destruct Hs.
    - replace (200 <=? status_code r) with false by (symmetry; apply Z.leb_gt; lia).
      reflexivity.
    - replace (status_code r <=? 299) with false by (symmetry; apply Z.leb_gt; lia).
      apply andb_false_r. }
  assert (Hf : failure_of (remote (tts_request m text voice_uuid output_format)) =
               Some (mkExn HTTPStatusError (status_text r)))
    by (rewrite Hr; simpl; now rewrite Hn).
  rewrite (generate_tts_no_result _ _ _ _ _ _ _ _ Hf). cbn [fst snd].
  repeat split. cbn [trace log]. rewrite !prints_of_app. simpl.
  now rewrite app_nil_r.
Qed.

End SynthesisEffects.



Lemma generate_tts_not_an_object_witness :
  lacks_audio_content (VStr "audio_content is missing") = false /\
  audio_field (VStr "audio_content is missing") = None /\
  files (snd (generate_tts (remote_ok (VStr "audio_content is missing"))
                b64decode_std sample_loaded "hello" None None fresh_world)) =
    files fresh_world.
Proof.
  split; [reflexivity|]. split; [reflexivity|].
  pose proof (generate_tts_not_an_object
                (remote_ok (VStr "audio_content is missing")) b64decode_std
                sample_loaded "hello" None None fresh_world
                _ _ eq_refl eq_refl eq_refl eq_refl eq_refl) as H.
  cbv zeta in H. exact (proj1 (proj2 H)).
Defined.

Lemma generate_tts_rejects_non_2xx_witness :
  fst (generate_tts
         (fun _ => Responded
                     (mkResponse 302 "Redirect response '302 Found'"
                        (Return (VDict [("audio_content", VStr "aGVsbG8=")]))))
         b64decode_std sample_loaded "hello" None None fresh_world) =
    Return "Unable to generate TTS audio.".
Proof.
  pose proof (generate_tts_rejects_non_2xx
                (fun _ => Responded
                            (mkResponse 302 "Redirect response '302 Found'"
                               (Return (VDict [("audio_content", VStr "aGVsbG8=")]))))
                b64decode_std sample_loaded "hello" None None fresh_world
                (mkResponse 302 "Redirect response '302 Found'"
                   (Return (VDict [("audio_content", VStr "aGVsbG8=")])))
                eq_refl (or_intror eq_refl)) as H.
  cbv zeta in H. exact (proj1 H).
Defined.

(** ** Several replies, several calls *)

(** X5: of a delivered object only the [audio_content] field is looked at.
    Two replies that agree on that field lead, from the same state, to the
    same return value or exception and to the same final state. *)
Theorem generate_tts_ignores_other_fields
    remote1 remote2 b64decode m text voice_uuid output_format w d1 d2 a :
  delivered (remote1 (tts_request m text voice_uuid output_format)) = Some (VDict d1) ->
  delivered (remote2 (tts_request m text voice_uuid output_format)) = Some (VDict d2) ->
  dict_get "audio_content" d1 = Some a ->
  dict_get "audio_content" d2 = Some a ->
  generate_tts remote1 b64decode m text voice_uuid output_format w =
  generate_tts remote2 b64decode m text voice_uuid output_format w.
Proof.
  intros H1 H2 A1 A2.
  now rewrite (generate_tts_audio _ _ _ _ _ _ _ _ _ H1 A1),
    (generate_tts_audio _ _ _ _ _ _ _ _ _ H2 A2).
Qed.

Lemma generate_tts_ignores_other_fields_witness :
  generate_tts (remote_ok (VDict [("audio_content", VStr "aGVsbG8=")])) b64decode_std
    sample_loaded "hello" None None fresh_world =
  generate_tts
    (remote_ok (VDict [("duration", VFloat (1 # 2));
                       ("audio_content", VStr "aGVsbG8=");
                       ("success", VBool false)]))
    b64decode_std sample_loaded "hello" None None fresh_world.
Proof.
  exact (generate_tts_ignores_other_fields
           (remote_ok (VDict [("audio_content", VStr "aGVsbG8=")]))
           (remote_ok (VDict [("duration", VFloat (1 # 2));
                              ("audio_content", VStr "aGVsbG8=");
                              ("success", VBool false)]))
           b64decode_std sample_loaded "hello" None None fresh_world
           _ _ (VStr "aGVsbG8=") eq_refl eq_refl eq_refl eq_refl).
Defined.



(** ** The synthesis operation with the standard decoder *)

Lemma generate_tts_writes_encoded_audio_witness :
  writable fresh_world "output.mp3" (bytes_of_string "hello world") = true /\
  files (snd (generate_tts
                (remote_ok (VDict [("audio_content",
                                    VStr (b64encode (bytes_of_string "hello world")))]))
                b64decode_std sample_loaded "hello world" None None fresh_world))
    !! "output.mp3" = Some (bytes_of_string "hello world").
Proof.
  split; [reflexivity|].
  exact (proj2 (generate_tts_writes_encoded_audio
                  (remote_ok (VDict [("audio_content",
                                      VStr (b64encode (bytes_of_string "hello world")))]))
                  sample_loaded "hello world" None None fresh_world
                  _ _ (bytes_of_string "hello world")
                  eq_refl eq_refl eq_refl eq_refl eq_refl)).
Defined.

(** X7: an [audio_content] that is not a string ([null], a number, a
    boolean, an array, an object) is rejected by the decoder with a
    [TypeError], which leaves the call; no file is touched. *)
Theorem generate_tts_audio_not_a_string
    remote m text voice_uuid output_format w r d a :
  remote (tts_request m text voice_uuid output_format) = Responded r ->
  is_success r = true ->
  json_outcome r = Return (VDict d) ->
  dict_get "audio_content" d = Some a ->
  (forall s, a <> VStr s) ->
  let run := generate_tts remote b64decode_std m text voice_uuid output_format w in
  (exists e, fst run = Raise e /\ exn_cls e = TypeError) /\
  files (snd run) = files w /\
  fs_events (trace (snd run)) = fs_events (trace w).
Proof.
  intros Hr Hs Hj Ha Hn run. subst run.
  destruct (b64decode_std_not_a_string a Hn) as (e & He & Hc).
  rewrite (generate_tts_audio_fault _ _ _ _ _ _ _ _ _ _
             (delivered_ok _ _ _ _ Hr Hs Hj) Ha He).
  cbn [fst snd].
  split; [eauto|]. split; [reflexivity|]. apply fs_events_log_request.
Qed.

Lemma generate_tts_audio_not_a_string_witness :
  files (snd (generate_tts (remote_ok (VDict [("audio_content", VInt 42)]))
                b64decode_std sample_loaded "hello" None None fresh_world)) =
    files fresh_world.
Proof.
  pose proof (generate_tts_audio_not_a_string
                (remote_ok (VDict [("audio_content", VInt 42)]))
                sample_loaded "hello" None None fresh_world
                _ _ (VInt 42) eq_refl eq_refl eq_refl eq_refl
                (fun s H => eq_ind (VInt 42)
                              (fun v => match v with VInt _ => True | _ => False end)
                              I (VStr s) H)) as H.
  cbv zeta in H. exact (proj1 (proj2 H)).
Defined.

(** The decoding loop skips the characters outside the alphabet and the
    padding, whatever state it is in. *)
Lemma a2b_base64_loop_strip s :
  forall quad_pos leftchar pads out,
    a2b_base64_loop s quad_pos leftchar pads out =
    a2b_base64_loop (strip_foreign s) quad_pos leftchar pads out.
Proof.
  induction s as [|c s IH]; intros quad_pos leftchar pads out; [reflexivity|].
  cbn [strip_foreign]. unfold is_base64_char.
  destruct (Ascii.eqb c BASE64_PAD) eqn:Hp.
  - cbn [orb a2b_base64_loop]. rewrite Hp.
    destruct (2 <=? quad_pos)%nat; [|apply IH].
    destruct (4 <=? quad_pos + S pads)%nat; [reflexivity | apply IH].
  - cbn [orb]. destruct (table_a2b_base64 c) as [v|] eqn:Ht.
    + cbn [a2b_base64_loop]. rewrite Hp, Ht.
      destruct quad_pos as [|[|[|?]]]; apply IH.
    + cbn [a2b_base64_loop]. rewrite Hp, Ht. apply IH.
Qed.

(** X9: the decoder is lenient.  When [audio_content] is ASCII text that,
    once the characters outside the alphabet are dropped (spaces, line
    breaks, punctuation), is the standard encoding of some bytes, and the
    file system accepts to open, write and close the output file, the call
    succeeds and the output file holds those bytes. *)
Theorem generate_tts_skips_foreign_characters
    remote m text voice_uuid output_format w r d s audio_bytes :
  remote (tts_request m text voice_uuid output_format) = Responded r ->
  is_success r = true ->
  json_outcome r = Return (VDict d) ->
  dict_get "audio_content" d = Some (VStr s) ->
  all_ascii s = true ->
  strip_foreign s = b64encode audio_bytes ->
  writable w ("output." +:+ default "mp3" output_format) audio_bytes = true ->
  let run := generate_tts remote b64decode_std m text voice_uuid output_format w in
  fst run =
    Return ("TTS audio generated and saved as output." +:+ default "mp3" output_format) /\
  files (snd run) !! ("output." +:+ default "mp3" output_format) = Some audio_bytes.
Proof.
  intros Hr Hs Hj Ha Hascii Hstrip Hw run. subst run.
  assert (Hd : b64decode_std (VStr s) = Return audio_bytes).
  { unfold b64decode_std, a2b_base64. rewrite Hascii, a2b_base64_loop_strip, Hstrip.
    apply a2b_base64_loop_encode. }
  rewrite (generate_tts_audio_written _ _ _ _ _ _ _ _ _ _
             (delivered_ok _ _ _ _ Hr Hs Hj) Ha Hd Hw).
  cbv zeta. cbn [fst snd files log with_files].
  split; [reflexivity | apply lookup_insert_eq].
Qed.

Lemma generate_tts_skips_foreign_characters_witness :
  strip_foreign "aGVs bG8g d29y bGQ= ." = b64encode (bytes_of_string "hello world") /\
  files (snd (generate_tts
                (remote_ok (VDict [("audio_content", VStr "aGVs bG8g d29y bGQ= .")]))
                b64decode_std sample_loaded "hello world" None None fresh_world))
    !! "output.mp3" = Some (bytes_of_string "hello world").
Proof.
  split; [reflexivity|].
  pose proof (generate_tts_skips_foreign_characters
                (remote_ok (VDict [("audio_content", VStr "aGVs bG8g d29y bGQ= .")]))
                sample_loaded "hello world" None None fresh_world
                _ _ "aGVs bG8g d29y bGQ= ." (bytes_of_string "hello world")
                eq_refl eq_refl eq_refl eq_refl eq_refl eq_refl eq_refl) as H.
  cbv zeta in H. exact (proj2 H).
Defined.

(** ** Effects of the helper and of a listing call *)

Section RequestEffects.

Variable remote : Request -> HttpOutcome.
Variable m : Loaded.

Lemma prints_of_log_print s w :
  prints_of (trace (log (EvPrint s) w)) = (prints_of (trace w) ++ [s])%list.
Proof. simpl. now rewrite prints_of_app. Qed.

Lemma prints_of_log_request r w :
  prints_of (trace (log (EvRequest r) w)) = prints_of (trace w).
Proof. simpl. rewrite prints_of_app. apply app_nil_r. Qed.

(** X11: [make_resemble_request] sends exactly one request, touches no
    file, and prints exactly when the exchange failed: one line, the prefix
    ["Error making Resemble AI request: "] followed by the text of the
    exception. *)
Theorem make_resemble_request_effects text voice_uuid output_format w :
  let req := synthesis_request m text (default "55592656" voice_uuid)
               (default "mp3" output_format) in
  let run := make_resemble_request remote m text voice_uuid output_format w in
  requests_of (trace (snd run)) = (requests_of (trace w) ++ [req])%list /\
  files (snd run) = files w /\
  fs_events (trace (snd run)) = fs_events (trace w) /\
  prints_of (trace (snd run)) =
    (prints_of (trace w) ++
     match failure_of (remote req) with
     | Some e => ["Error making Resemble AI request: " +:+ str_exn e]
     | None => []
     end)%list.
Proof.
  intros req run. subst run. rewrite make_resemble_request_run. cbv zeta. fold req.
  destruct (failure_of (remote req)) as [e|]; cbn [snd].
  - rewrite requests_of_log_print, requests_of_log_request,
      fs_events_log_print, fs_events_log_request,
      prints_of_log_print, prints_of_log_request.
    repeat split.
  - rewrite requests_of_log_request, fs_events_log_request, prints_of_log_request,
      app_nil_r.
    repeat split.
Qed.

(** X13: [list_voices] touches no file and draws no UUID; on success it
    prints nothing; on failure it prints one line, and that line is the very
    string it returns under the key ["error"]: the prefix
    ["Error retrieving voices: "] followed by the text of the exception. *)
Theorem list_voices_effects page page_size w :
  let req := voices_request m (default 1 page) (default 10 page_size) in
  let run := list_voices remote m page page_size w in
  files (snd run) = files w /\
  fs_events (trace (snd run)) = fs_events (trace w) /\
  draws (snd run) = draws w /\
  match failure_of (remote req) with
  | Some e =>
      fst run = Return (VDict [("error", VStr ("Error retrieving voices: " +:+ str_exn e))]) /\
      prints_of (trace (snd run)) =
        (prints_of (trace w) ++ ["Error retrieving voices: " +:+ str_exn e])%list
  | None =>
      prints_of (trace (snd run)) = prints_of (trace w)
  end.
Proof.
  intros req run. subst run. rewrite list_voices_run. cbv zeta. fold req.
  destruct (failure_of (remote req)) as [e|]; cbn [fst snd].
  - rewrite fs_events_log_print, fs_events_log_request,
      prints_of_log_print, prints_of_log_request.
    repeat split.
  - rewrite fs_events_log_request, prints_of_log_request. repeat split.
Qed.

(** X12: nothing is cached.  Two identical listing calls in a row send the
    same request twice. *)
Theorem list_voices_no_cache page page_size w :
  let req := voices_request m (default 1 page) (default 10 page_size) in
  let w1 := snd (list_voices remote m page page_size w) in
  let w2 := snd (list_voices remote m page page_size w1) in
  requests_of (trace w2) = (requests_of (trace w) ++ [req; req])%list.
Proof.
  intros req w1 w2. subst w2 w1.
  assert (H : forall w0,
             requests_of (trace (snd (list_voices remote m page page_size w0))) =
             (requests_of (trace w0) ++ [req])%list).
  { intros w0. rewrite list_voices_run. cbv zeta. fold req.
    destruct (failure_of (remote req)); cbn [snd].
    - now rewrite requests_of_log_print, requests_of_log_request.
    - apply requests_of_log_request. }
  rewrite !H, <- app_assoc. reflexivity.
Qed.

(** X14: the request of a listing call is a GET without a body; its headers
    are the [Authorization] header ["Bearer "] followed by the credential
    and [Content-Type: application/json], and its timeout is 30 seconds. *)
Theorem list_voices_request_shape page page_size w :
  exists req,
    requests_of (trace (snd (list_voices remote m page page_size w))) =
      (requests_of (trace w) ++ [req])%list /\
    req_method req = GET /\
    req_json req = None /\
    req_headers req =
      [("Authorization", "Bearer " +:+ RESEMBLE_API_KEY m);
       ("Content-Type", "application/json")] /\
    req_timeout req = 30%Q.
Proof.
  exists (voices_request m (default 1 page) (default 10 page_size)).
  split; [|repeat split].
  rewrite list_voices_run. cbv zeta.
  destruct (failure_of _); cbn [snd].
  - now rewrite requests_of_log_print, requests_of_log_request.
  - apply requests_of_log_request.
Qed.

End RequestEffects.

(** ** The process as a whole *)

Lemma str_take_prefix n s : String.prefix (str_take n s) s = true.
Proof.
  unfold str_take. revert s.
  induction n as [|n IH]; intros [|c s]; simpl; try reflexivity.
  destruct (ascii_dec c c) as [_|Hne]; [apply IH | now destruct Hne].
Qed.

Lemma str_take_length n s :
  String.length (str_take n s) = Nat.min n (String.length s).
Proof.
  unfold str_take. revert s.
  induction n as [|n IH]; intros [|c s]; simpl; try reflexivity.
  now rewrite IH.
Qed.

(** X17: the default voice identifier fixed at import is the beginning of
    the UUID drawn then: a prefix of it, eight characters long (shorter only
    if the UUID text itself were shorter). *)
Theorem default_voice_uuid_is_uuid_prefix dotenv w :
  exists m w1,
    import_module dotenv w = (Return m, w1) /\
    String.prefix (generate_tts_voice_uuid_default m) (entropy w (draws w)) = true /\
    String.length (generate_tts_voice_uuid_default m) =
      Nat.min 8 (String.length (entropy w (draws w))).
Proof.
  rewrite import_module_run. eexists. eexists. split; [reflexivity|].
  cbn [generate_tts_voice_uuid_default].
  split; [apply str_take_prefix | apply str_take_length].
Qed.

(** X15: the credential a process sends.  After import, every request of
    [generate_tts] and of [list_voices] carries ["Bearer "] followed by the
    value of [RESEMBLE_API_KEY] in the environment if it is set there, else
    by its value in the [.env] file if it is set there, else by
    ["Not found"]. *)
Theorem process_sends_credential dotenv w0 :
  let key := match environ w0 !! "RESEMBLE_API_KEY" with
             | Some k => k
             | None => default "Not found" (dotenv !! "RESEMBLE_API_KEY")
             end in
  exists m w1,
    import_module dotenv w0 = (Return m, w1) /\
    (forall remote b64decode text voice_uuid output_format w,
        exists req,
          requests_of (trace (snd (generate_tts remote b64decode m text voice_uuid
                                     output_format w))) =
            (requests_of (trace w) ++ [req])%list /\
          header "Authorization" (req_headers req) = Some ("Bearer " +:+ key)) /\
    (forall remote page page_size w,
        exists req,
          requests_of (trace (snd (list_voices remote m page page_size w))) =
            (requests_of (trace w) ++ [req])%list /\
          header "Authorization" (req_headers req) = Some ("Bearer " +:+ key)).
Proof.
  intros key.
  destruct (import_module_credential dotenv w0) as (m & w1 & Hi & Hk).
  fold key in Hk. exists m, w1. split; [exact Hi|]. split.
  - intros. exists (tts_request m text voice_uuid output_format).
    split; [apply generate_tts_requests|]. simpl. now rewrite Hk.
  - intros. exists (voices_request m (default 1 page) (default 10 page_size)).
    split; [|simpl; now rewrite Hk].
    rewrite list_voices_run. cbv zeta.
    destruct (failure_of _); cbn [snd].
    + now rewrite requests_of_log_print, requests_of_log_request.
    + apply requests_of_log_request.
Qed.

(** X16: running the script never raises, and ends by starting the server
    on the [stdio] transport.  Before that it prints the two warning lines
    exactly when the credential it resolved is the empty string, that is
    when the variable is set to nothing; with any other value, and with no
    value at all, it prints nothing. *)
Theorem run_script_trace dotenv w :
  let key := match environ w !! "RESEMBLE_API_KEY" with
             | Some k => k
             | None => default "Not found" (dotenv !! "RESEMBLE_API_KEY")
             end in
  exists w',
    run_script dotenv w = (Return tt, w') /\
    trace w' =
      (trace w ++
       match key with
       | EmptyString =>
           [EvPrint "Warning: RESEMBLE_API_KEY environment variable is not set.";
            EvPrint "Set it using: export RESEMBLE_API_KEY='your-api-key'"]
       | String _ _ => []
       end ++ [EvRun "stdio"])%list.
Proof.
  intros key. unfold run_script, bind.
  destruct (import_module_credential dotenv w) as (m & w1 & Hi & Hk).
  fold key in Hk. rewrite Hi, main_run, Hk.
  assert (Ht : trace w1 = trace w)
    by (rewrite import_module_run in Hi; now injection Hi as _ <-).
  eexists. split; [reflexivity|].
  destruct key; cbn [trace log]; rewrite Ht, <- ?app_assoc; reflexivity.
Qed.
